(** * log_analytics: the extraction pipeline

    A shallow embedding of [extractor/log_file_base.py] and of the three
    extractors of [extractor/rails/] (Controller, Metrics, Model), with the
    fragment of Python's [re] module their patterns use.

    Text is modelled by [string]: a character is a code point below 256
    and the character classes [\d], [\s] and [.] are Python's (for [str]
    patterns) on that range. *)

From Stdlib Require Import Bool Arith NArith ZArith QArith Qpower Qfield.
From Stdlib Require Import List Ascii String Lia.
Import ListNotations.

Local Close Scope Q_scope.
Local Open Scope string_scope.
Local Open Scope nat_scope.

(** ** Strings *)

Module Str.

(** [s.startswith(p)] *)
Fixpoint startswith (p s : string) : bool :=
  match p with
  | EmptyString => true
  | String a p' =>
      match s with
      | EmptyString => false
      | String b s' => Ascii.eqb a b && startswith p' s'
      end
  end.

(** [p in s] for two strings *)
Fixpoint contains (p s : string) : bool :=
  startswith p s ||
  match s with
  | EmptyString => false
  | String _ s' => contains p s'
  end.

(** every character of [s] is in the class [cs] *)
Fixpoint all (cs : ascii -> bool) (s : string) : bool :=
  match s with
  | EmptyString => true
  | String c s' => cs c && all cs s'
  end.

(** the part of [s] in front of its suffix [s'] *)
Definition consumed (s s' : string) : string :=
  substring 0 (String.length s - String.length s') s.

(** [sep.join(l)] *)
Fixpoint join (sep : string) (l : list string) : string :=
  match l with
  | [] => ""
  | [x] => x
  | x :: l' => x ++ sep ++ join sep l'
  end.

Definition code (c : ascii) : nat := nat_of_ascii c.

(** [c.lower()] on code points below 256: A-Z and the Latin-1 capitals *)
Definition lower_char (c : ascii) : ascii :=
  let n := code c in
  if ((65 <=? n) && (n <=? 90)) ||
     ((192 <=? n) && (n <=? 222) && negb (n =? 215))
  then ascii_of_nat (n + 32) else c.

(** [s.lower()] *)
Fixpoint lower (s : string) : string :=
  match s with
  | EmptyString => EmptyString
  | String c s' => String (lower_char c) (lower s')
  end.

End Str.

(** ** The fragment of [re] used by the extractors *)

Module Re.

Definition charset := ascii -> bool.

(** [\d]: the decimal digits; below 256 these are 0-9 *)
Definition digit : charset :=
  fun c => (48 <=? Str.code c) && (Str.code c <=? 57).

(** [\s]: Unicode white space; below 256 these are TAB..CR, FS..US, the
    space, NEL and the no-break space *)
Definition space : charset :=
  fun c =>
    let n := Str.code c in
    ((9 <=? n) && (n <=? 13)) || ((28 <=? n) && (n <=? 32)) ||
    (n =? 133) || (n =? 160).

(** [.] without DOTALL: anything but a line feed *)
Definition dot : charset := fun c => negb (Str.code c =? 10).

(** [[A-Za-z]] *)
Definition alpha : charset :=
  fun c =>
    let n := Str.code c in
    ((65 <=? n) && (n <=? 90)) || ((97 <=? n) && (n <=? 122)).

(** [[^\s]] *)
Definition nonspace : charset := fun c => negb (space c).

(** Patterns.  A repetition is always of a one-character class, as in all
    the patterns of the program ([.*?], [\d{1,}], [\d+], [[A-Za-z]*],
    [[^\s]+], [\d{6}]). *)
Inductive regex : Type :=
| Empty                                   (* the empty pattern *)
| Lit (c : ascii)                         (* one literal character *)
| OneOf (cs : charset)                       (* one character of a class *)
| Cat (r1 r2 : regex)                     (* r1r2 *)
| Alt (r1 r2 : regex)                     (* r1|r2 *)
| Opt (r : regex)                         (* (?:r)? *)
| Rep (greedy : bool) (lo : nat) (hi : option nat) (cs : charset)
                                          (* cs{lo,hi} and cs{lo,hi}? *)
| Group (n : nat) (r : regex).            (* (r), the n-th group *)

Notation "r1 +++ r2" := (Cat r1 r2) (at level 61, right associativity).

(** a literal string *)
Fixpoint lit (s : string) : regex :=
  match s with
  | EmptyString => Empty
  | String c s' => Lit c +++ lit s'
  end.

Definition star (cs : charset) : regex := Rep true 0 None cs.
Definition plus (cs : charset) : regex := Rep true 1 None cs.
Definition lazy_star (cs : charset) : regex := Rep false 0 None cs.

(** The groups set so far, most recent first. *)
Definition groups := list (nat * string).

Fixpoint lookup (n : nat) (g : groups) : option string :=
  match g with
  | [] => None
  | (m, v) :: g' => if n =? m then Some v else lookup n g'
  end.

Definition result : Type := string * groups.
Definition cont : Type := string -> groups -> option result.

Definition can_take (hi : option nat) : bool :=
  match hi with Some 0 => false | _ => true end.

Definition dec (hi : option nat) : option nat := option_map pred hi.

(** Greedy repetition: take one more character when possible, and fall
    back to stopping here. *)
Fixpoint rep_greedy (cs : charset) (lo : nat) (hi : option nat)
    (s : string) (g : groups) (k : cont) : option result :=
  let stop := if lo =? 0 then k s g else None in
  match s with
  | String c s' =>
      if cs c && can_take hi then
        match rep_greedy cs (pred lo) (dec hi) s' g k with
        | Some r => Some r
        | None => stop
        end
      else stop
  | EmptyString => stop
  end.

(** Lazy repetition: stop here when the rest matches, else take one more
    character. *)
Fixpoint rep_lazy (cs : charset) (lo : nat) (hi : option nat)
    (s : string) (g : groups) (k : cont) : option result :=
  let more :=
    match s with
    | String c s' =>
        if cs c && can_take hi then rep_lazy cs (pred lo) (dec hi) s' g k
        else None
    | EmptyString => None
    end in
  if lo =? 0 then
    match k s g with
    | Some r => Some r
    | None => more
    end
  else more.

(** The backtracking matcher: [exec r s g k] matches [r] at the front of
    [s] and hands the rest of the text to [k]; the first alternative whose
    continuation succeeds wins. *)
Fixpoint exec (r : regex) (s : string) (g : groups) (k : cont)
    : option result :=
  match r with
  | Empty => k s g
  | Lit c =>
      match s with
      | String c' s' => if Ascii.eqb c c' then k s' g else None
      | EmptyString => None
      end
  | OneOf cs =>
      match s with
      | String c' s' => if cs c' then k s' g else None
      | EmptyString => None
      end
  | Cat r1 r2 => exec r1 s g (fun s' g' => exec r2 s' g' k)
  | Alt r1 r2 =>
      match exec r1 s g k with
      | Some x => Some x
      | None => exec r2 s g k
      end
  | Opt r1 =>
      match exec r1 s g k with
      | Some x => Some x
      | None => k s g
      end
  | Rep true lo hi cs => rep_greedy cs lo hi s g k
  | Rep false lo hi cs => rep_lazy cs lo hi s g k
  | Group n r1 =>
      exec r1 s g (fun s' g' => k s' ((n, Str.consumed s s') :: g'))
  end.

(** A match object: where the match starts, the matched text and the
    groups. *)
Record Match : Type := mkMatch {
  m_start : nat;
  m_text : string;
  m_groups : groups
}.

(** [m.group(n)]: [None] for a group that did not take part *)
Definition group (m : Match) (n : nat) : option string :=
  match n with
  | 0 => Some (m_text m)
  | _ => lookup n (m_groups m)
  end.

Definition accept : cont := fun s g => Some (s, g).

Definition match_at (r : regex) (pos : nat) (s : string) : option Match :=
  match exec r s [] accept with
  | Some (s', g) => Some (mkMatch pos (Str.consumed s s') g)
  | None => None
  end.

Fixpoint search_from (r : regex) (pos : nat) (s : string) : option Match :=
  match match_at r pos s with
  | Some m => Some m
  | None =>
      match s with
      | EmptyString => None
      | String _ s' => search_from r (S pos) s'
      end
  end.

(** [pattern.search(s)]: the leftmost match *)
Definition search (r : regex) (s : string) : option Match :=
  search_from r 0 s.

(** [pattern.match(s)]: a match at the start of [s] only *)
Definition re_match (r : regex) (s : string) : option Match :=
  match_at r 0 s.

End Re.

Import Re.

(** ** Python values and exceptions *)

Module Py.

Inductive exn : Type :=
| OSError (what : string)
| InvalidOperation
| TypeError
| ValueError.

(** What evaluating an expression gives: a value or a raised exception. *)
Inductive outcome (A : Type) : Type :=
| Ok (a : A)
| Raise (e : exn).

Arguments Ok {A} a.
Arguments Raise {A} e.

Definition bind {A B} (x : outcome A) (f : A -> outcome B) : outcome B :=
  match x with
  | Ok a => f a
  | Raise e => Raise e
  end.

(** the truth value of [None] or an object without [__bool__], [__len__] *)
Definition truthy {A} (o : option A) : bool :=
  match o with Some _ => true | None => false end.

(** the truth value of an optional [str] *)
Definition truthy_str (o : option string) : bool :=
  match o with
  | Some EmptyString => false
  | Some _ => true
  | None => false
  end.

(** [all(l)] *)
Definition all (l : list bool) : bool := forallb (fun b => b) l.

(** [f'{o}'] for an optional [str] *)
Definition fmt (o : option string) : string :=
  match o with Some s => s | None => "None" end.

(** the number a text of decimal digits writes, after [acc] *)
Fixpoint digits_value (acc : N) (s : string) : N :=
  match s with
  | EmptyString => acc
  | String c s' => digits_value (acc * 10 + N.of_nat (Str.code c - 48)) s'
  end.

Definition is_digits (s : string) : bool :=
  Str.all digit s && negb (String.eqb s "").

(** [sys.get_int_max_str_digits()]: the most digits [int] converts *)
Definition int_max_str_digits : nat := 4300.

(** [int(o)] for the texts the program passes: decimal digits.  [None]
    is a [TypeError], and a text of more than 4300 digits is a
    [ValueError], as is a text that is not a numeral. *)
Definition int (o : option string) : outcome Z :=
  match o with
  | None => Raise TypeError
  | Some s =>
      if is_digits s then
        if String.length s <=? int_max_str_digits
        then Ok (Z.of_N (digits_value 0 s))
        else Raise ValueError
      else Raise ValueError
  end.

End Py.

Import Py.

Notation "x <- e1 ;; e2" := (Py.bind e1 (fun x => e2))
  (at level 100, e1 at next level, right associativity).

(** ** [decimal.Decimal] *)

Module Decimal.

(** A finite decimal: [(-1)^sign * coefficient * 10^exponent], as
    [as_tuple()] shows it. *)
Record t : Type := mk {
  sign : bool;
  coefficient : N;
  exponent : Z
}.

(** the text in front of the first point, and the text after it *)
Fixpoint split_point (s : string) : string * option string :=
  match s with
  | EmptyString => (EmptyString, None)
  | String c s' =>
      if Ascii.eqb c "." then (EmptyString, Some s')
      else let (a, b) := split_point s' in (String c a, b)
  end.

(** [Decimal(s)] for the texts the program builds: digits, a point,
    digits, with at least one digit.  The conversion is exact: no
    rounding to the context's precision takes place in the constructor. *)
Definition of_string (s : string) : outcome t :=
  let (a, b) := split_point s in
  let f := match b with Some f => f | None => "" end in
  if Str.all digit a && Str.all digit f && negb (String.eqb (a ++ f) "")
  then Ok (mk false (digits_value 0 (a ++ f)) (- Z.of_nat (String.length f)))
  else Raise InvalidOperation.

(** the number a text of digits writes, as a rational *)
Definition number (s : string) : Q := inject_Z (Z.of_N (digits_value 0 s)).

(** the rational number a decimal denotes *)
Definition value (d : t) : Q :=
  ((if sign d then -1 else 1) * inject_Z (Z.of_N (coefficient d))
   * Qpower (10 # 1) (exponent d))%Q.

End Decimal.

(** ** extractor/rails/controller.py *)

Module Controller.

Record DataStruct : Type := mkData {
  pid : option string;
  controller_name : option string
}.

(** [[A-Za-z]*Controller\#[^\s]+] *)
Definition PATTERN : regex :=
  star alpha +++ lit "Controller" +++ Lit "#" +++ plus nonspace.

Definition extract_additional_data (log_line : string)
    : outcome (option DataStruct) :=
  match search PATTERN log_line with
  | None => Ok None
  | Some m => Ok (Some (mkData None (group m 0)))
  end.

Definition set_pid (d : DataStruct) (p : option string) : DataStruct :=
  mkData p (controller_name d).

End Controller.

(** ** extractor/rails/metrics.py *)

Module Metrics.

Record DataStruct : Type := mkData {
  pid : option string;
  views : option Decimal.t;
  duration : option Decimal.t;
  allocation : option Z
}.

(** [(\d+)(?:\.(\d+))?ms] after a literal label *)
Definition millis (label : string) : regex :=
  lit label +++ Group 1 (plus digit) +++
  Opt (Lit "." +++ Group 2 (plus digit)) +++ lit "ms".

Definition VIEWS_PATTERN : regex := millis "Views: ".
Definition DURATION_PATTERN : regex := millis "ActiveRecord: ".
Definition ALLOCATION_PATTERN : regex :=
  lit "Allocations: " +++ Group 1 (plus digit).

Definition __extract_decimal (m : Match) : outcome Decimal.t :=
  let decimal_part :=
    if truthy_str (group m 2) then fmt (group m 2) else "0" in
  Decimal.of_string (fmt (group m 1) ++ "." ++ decimal_part).

Definition extract_additional_data (log_line : string)
    : outcome (option DataStruct) :=
  if negb (Str.contains "INFO" log_line) then Ok None
  else
    let views_match := search VIEWS_PATTERN log_line in
    let duration_match := search DURATION_PATTERN log_line in
    let allocation_match := search ALLOCATION_PATTERN log_line in
    if negb (Py.all [truthy views_match]) then Ok None
    else
      views <- match views_match with
               | Some m => d <- __extract_decimal m ;; Ok (Some d)
               | None => Ok None
               end ;;
      duration <- match duration_match with
                  | Some m => d <- __extract_decimal m ;; Ok (Some d)
                  | None => Ok None
                  end ;;
      allocation <- match allocation_match with
                    | Some m => n <- int (group m 1) ;; Ok (Some n)
                    | None => Ok None
                    end ;;
      Ok (Some (mkData None views duration allocation)).

Definition set_pid (d : DataStruct) (p : option string) : DataStruct :=
  mkData p (views d) (duration d) (allocation d).

End Metrics.

(** ** extractor/rails/model.py *)

Module Model.

Record DataStruct : Type := mkData {
  pid : option string;
  class_name : option string
}.

Definition EXCLUDE_CLASS_NAMES : list string :=
  ["ArInternalMetadata"; "SchemaMigration"].

(** the characters [re.escape] puts a backslash in front of:
    [()[]{}?*+-|^$\.&~#], the space, TAB, LF, CR, VT and FF *)
Definition special (c : ascii) : bool :=
  existsb (Nat.eqb (Str.code c))
    [40; 41; 91; 93; 123; 125; 63; 42; 43; 45; 124; 94; 36; 92; 46; 38;
     126; 35; 32; 9; 10; 13; 11; 12].

(** [re.escape(s)] *)
Fixpoint escape (s : string) : string :=
  match s with
  | EmptyString => EmptyString
  | String c s' =>
      if special c then String "\" (String c (escape s'))
      else String c (escape s')
  end.

(** The alternatives of a pattern made of escaped names joined by [|]:
    the first one, and the ones after it.  A backslash makes the next
    character a literal, a bare [|] starts the next alternative. *)
Fixpoint branches (p : string) : regex * list regex :=
  match p with
  | EmptyString => (Empty, [])
  | String c p' =>
      if Ascii.eqb c "\" then
        match p' with
        | String c' p'' =>
            let (b, bs) := branches p'' in (Lit c' +++ b, bs)
        | EmptyString => (Lit c, [])
        end
      else if Ascii.eqb c "|" then
        let (b, bs) := branches p' in (Empty, b :: bs)
      else
        let (b, bs) := branches p' in (Lit c +++ b, bs)
  end.

Fixpoint alternation (b : regex) (bs : list regex) : regex :=
  match bs with
  | [] => b
  | b' :: bs' => Alt b (alternation b' bs')
  end.

(** [re.compile(p)] for such a pattern *)
Definition compile (p : string) : regex :=
  let (b, bs) := branches p in alternation b bs.

Definition mem (x : string) (l : list string) : bool :=
  existsb (String.eqb x) l.

(** [table_names] is the list of camel-cased singular table names, which
    the source derives from the database with the [inflect] engine. *)
Definition __modelname_into_regexp (table_names : list string) : regex :=
  let escaped_table_names := map escape table_names in
  let filtered_list :=
    filter (fun el => negb (mem el EXCLUDE_CLASS_NAMES)) escaped_table_names in
  compile (Str.join "|" filtered_list).

Definition extract_additional_data (PATTERN : regex) (log_line : string)
    : outcome (option DataStruct) :=
  if negb (Str.contains "DEBUG" log_line) then Ok None
  else
    match search PATTERN log_line with
    | None => Ok None
    | Some m => Ok (Some (mkData None (group m 0)))
    end.

Definition set_pid (d : DataStruct) (p : option string) : DataStruct :=
  mkData p (class_name d).

End Model.

(** ** extractor/log_file_base.py *)

Module Logging.

Inductive level : Type := INFO | WARNING | ERROR.

(** a record handed to the logger's handler *)
Record record : Type := mk {
  levelname : level;
  message : string
}.

End Logging.

(** The file system as the program reads it: whether a path exists,
    [os.listdir] (the names, in listing order) and [open(path, 'r')]
    followed by the iteration over the lines of the file. *)
Record filesystem : Type := mkFs {
  exists_ : string -> bool;
  listdir : string -> outcome (list string);
  open_ : string -> outcome (list string)
}.

(** The file system as the program changes it: [os.makedirs(dir,
    exist_ok=True)], [open(path, 'w')] and the writing of a content to the
    opened file; each returns or raises. *)
Record output : Type := mkOut {
  makedirs_ : string -> outcome unit;
  open_w : string -> outcome unit;
  to_csv_ : string -> string -> outcome unit
}.

(** [os.path.join(a, b)] on POSIX paths *)
Definition path_join (a b : string) : string :=
  if Str.startswith "/" b then b
  else if String.eqb a "" then b
  else if Str.startswith "/" (String.string_of_list_ascii
                                (rev (String.list_ascii_of_string a)))
       then a ++ b
       else a ++ "/" ++ b.

(** What a subclass of [LogFileBase] and its data class provide. *)
Class LogFile (E : Type) : Type := {
  __name__ : string;
  extract_additional_data : string -> outcome (option E);
  set_pid : E -> option string -> E
}.

#[export] Instance Controller_LogFile : LogFile Controller.DataStruct := {
  __name__ := "Controller";
  extract_additional_data := Controller.extract_additional_data;
  set_pid := Controller.set_pid
}.

#[export] Instance Metrics_LogFile : LogFile Metrics.DataStruct := {
  __name__ := "Metrics";
  extract_additional_data := Metrics.extract_additional_data;
  set_pid := Metrics.set_pid
}.

(** The Model extractor, for the table names found at construction. *)
Definition Model_LogFile (table_names : list string)
    : LogFile Model.DataStruct := {|
  __name__ := "Model";
  extract_additional_data :=
    Model.extract_additional_data (Model.__modelname_into_regexp table_names);
  set_pid := Model.set_pid
|}.

(** [\[.*?\s(#\d{1,})\]] *)
Definition PID_PATTERN : regex :=
  Lit "[" +++ lazy_star dot +++ OneOf space +++
  Group 1 (Lit "#" +++ Rep true 1 None digit) +++ Lit "]".

Section LogFileBase.

Context {E : Type} {X : LogFile E}.

(** the file system, and the directory of the source file ([__file__]) *)
Variable fs : filesystem.
Variable here : string.

(** What pandas writes for [DataFrame(data_list).to_csv(f, sep='\t',
    index=False)]: the line of column names, and one line per record (the
    format of a column depends on all its values). *)
Variable csv_header : string.
Variable csv_row : list E -> E -> string.

(** the output side of the file system *)
Variable out : output.

Definition to_csv (data : list E) : string :=
  csv_header ++ String.concat "" (map (csv_row data) data).

(** What a statement does to the world, in order: the records it hands
    to its logger, the directories it makes, the files it creates (or
    empties) by opening them for writing, and the files it has written to
    the end. *)
Inductive event : Type :=
| Log (r : Logging.record)
| MakeDirs (d : string)
| CreateFile (path : string)
| WriteFile (path content : string).

(** the state of a freshly constructed extractor: [self.data_list = []] *)
Definition __init__ : list E := [].

(** A statement: from [self.data_list] it ends normally or raises, and
    leaves the new [self.data_list] and the events it caused; what was
    done before an exception stays done. *)
Definition M (A : Type) : Type := list E -> outcome A * list E * list event.

Definition ret {A} (a : A) : M A := fun d => (Ok a, d, []).

Definition raise {A} (e : exn) : M A := fun d => (Raise e, d, []).

Definition lift {A} (o : outcome A) : M A := fun d => (o, d, []).

Definition seq {A B} (m : M A) (f : A -> M B) : M B :=
  fun d =>
    match m d with
    | (Ok a, d1, t1) =>
        match f a d1 with
        | (o, d2, t2) => (o, d2, (t1 ++ t2)%list)
        end
    | (Raise e, d1, t1) => (Raise e, d1, t1)
    end.

(** [try: body except OSError as e: handler(e)] *)
Definition try_except_OSError {A} (body : M A) (handler : exn -> M A) : M A :=
  fun d =>
    match body d with
    | (Raise (OSError what), d1, t1) =>
        match handler (OSError what) d1 with
        | (o, d2, t2) => (o, d2, (t1 ++ t2)%list)
        end
    | r => r
    end.

Fixpoint for_each {A} (l : list A) (body : A -> M unit) : M unit :=
  match l with
  | [] => ret tt
  | a :: l' => seq (body a) (fun _ => for_each l' body)
  end.

Definition emit (lv : Logging.level) (msg : string) : M unit :=
  fun d => (Ok tt, d, [Log (Logging.mk lv msg)]).

Definition logger_info := emit Logging.INFO.
Definition logger_warning := emit Logging.WARNING.
Definition logger_error := emit Logging.ERROR.
(** [logger.exception] logs at level ERROR *)
Definition logger_exception := emit Logging.ERROR.

Definition get_data_list : M (list E) := fun d => (Ok d, d, []).

(** [self.data_list.append(e)] *)
Definition data_list_append (e : E) : M unit := fun d => (Ok tt, (d ++ [e])%list, []).

(** [os.makedirs(dir, exist_ok=True)] *)
Definition makedirs (dir : string) : M unit :=
  fun d =>
    match makedirs_ out dir with
    | Ok _ => (Ok tt, d, [MakeDirs dir])
    | Raise e => (Raise e, d, [])
    end.

(** [with open(path, 'w', newline='') as f: df.to_csv(f, ...)]: opening
    creates the file, and the writing can still fail *)
Definition write_file (path content : string) : M unit :=
  fun d =>
    match open_w out path with
    | Raise e => (Raise e, d, [])
    | Ok _ =>
        match to_csv_ out path content with
        | Ok _ => (Ok tt, d, [CreateFile path; WriteFile path content])
        | Raise e => (Raise e, d, [CreateFile path])
        end
    end.

(** [str(e)] *)
Definition str_exn (e : exn) : string :=
  match e with
  | OSError what => what
  | InvalidOperation => "InvalidOperation"
  | TypeError => "TypeError"
  | ValueError => "ValueError"
  end.

(** [_init_entity]: [None] stands for the [False] of the source. *)
Definition _init_entity (log_line : string) : outcome (option E) :=
  match search PID_PATTERN log_line with
  | None => Ok None
  | Some pid_match =>
      additional_data <- extract_additional_data log_line ;;
      match additional_data with
      | None => Ok None
      | Some additional_data =>
          Ok (Some (set_pid additional_data (group pid_match 1)))
      end
  end.

(** the body of the loop over the lines of a file *)
Definition convert_line (line : string) : M unit :=
  seq (lift (_init_entity line)) (fun entity =>
  match entity with
  | Some entity => data_list_append entity
  | None => ret tt
  end).

Definition __convert_log_into_array (filename : string) : M unit :=
  try_except_OSError
    (seq (logger_info ("Starting to process log file: " ++ filename))
       (fun _ =>
     seq (lift (open_ fs filename)) (fun log_file =>
     seq (for_each log_file convert_line) (fun _ =>
     seq get_data_list (fun data =>
     match data with
     | [] => logger_warning ("No data extracted from log file: " ++ filename)
     | _ :: _ => ret tt
     end)))))
    (fun e =>
       seq (logger_exception
              ("Error opening file " ++ filename ++ ": " ++ str_exn e))
         (fun _ => raise e)).

Definition logs_dir : string := path_join here "../logs".

(** the body of the loop over the directory listing *)
Definition convert_if_selected (log_name_pattern : regex) (log : string)
    : M unit :=
  match re_match log_name_pattern log with
  | Some _ => __convert_log_into_array (logs_dir ++ "/" ++ log)
  | None => ret tt
  end.

Definition output_file_path (output_folder : string) : string :=
  path_join (path_join here "../tmp") output_folder
  ++ "/" ++ Str.lower __name__ ++ ".tsv".

Definition export_tsv (log_name_pattern : regex) (output_folder : string)
    : M unit :=
  if negb (exists_ fs logs_dir) then
    logger_error ("Log directory not found: " ++ logs_dir)
  else
    seq (lift (listdir fs logs_dir)) (fun log_files =>
    seq (for_each log_files (convert_if_selected log_name_pattern)) (fun _ =>
    let output_dir := path_join (path_join here "../tmp") output_folder in
    seq (makedirs output_dir) (fun _ =>
    seq get_data_list (fun data =>
    match data with
    | _ :: _ =>
        seq (write_file (output_file_path output_folder) (to_csv data))
          (fun _ =>
        logger_info ("Data exported to " ++ output_file_path output_folder))
    | [] => logger_warning "No data found to export"
    end)))).

(** the files a run of events writes, and the records it logs *)
Fixpoint written (t : list event) : list (string * string) :=
  match t with
  | [] => []
  | WriteFile p c :: t' => (p, c) :: written t'
  | _ :: t' => written t'
  end.

Fixpoint logged (t : list event) : list Logging.record :=
  match t with
  | [] => []
  | Log r :: t' => r :: logged t'
  | _ :: t' => logged t'
  end.

End LogFileBase.

(** ** tasks.py *)

(** [re.compile(rf'{rails_env}.log.\d{{6}}')], for an environment name
    without special characters *)
Definition log_name_pattern (rails_env : string) : regex :=
  lit rails_env +++ OneOf dot +++ lit "log" +++ OneOf dot +++
  Rep true 6 (Some 6) digit.

(** ** What a pattern matches

    [matches r x g g']: the pattern [r] matches exactly the text [x], and
    doing so turns the groups [g] into [g'].  This says which matches
    exist, not which one the matcher prefers. *)

Definition within (hi : option nat) (n : nat) : Prop :=
  match hi with
  | None => True
  | Some h => n <= h
  end.

Inductive matches : regex -> string -> groups -> groups -> Prop :=
| M_Empty g : matches Empty "" g g
| M_Lit c g : matches (Lit c) (String c "") g g
| M_In cs c g : cs c = true -> matches (OneOf cs) (String c "") g g
| M_Cat r1 r2 x1 x2 g g1 g2 :
    matches r1 x1 g g1 -> matches r2 x2 g1 g2 ->
    matches (Cat r1 r2) (x1 ++ x2) g g2
| M_AltL r1 r2 x g g' : matches r1 x g g' -> matches (Alt r1 r2) x g g'
| M_AltR r1 r2 x g g' : matches r2 x g g' -> matches (Alt r1 r2) x g g'
| M_OptSome r x g g' : matches r x g g' -> matches (Opt r) x g g'
| M_OptNone r g : matches (Opt r) "" g g
| M_Rep greedy lo hi cs x g :
    Str.all cs x = true -> lo <= String.length x ->
    within hi (String.length x) ->
    matches (Rep greedy lo hi cs) x g g
| M_Group n r x g g' :
    matches r x g g' -> matches (Group n r) x g ((n, x) :: g').

(** a line has a process-ID token: a bracket, characters other than a
    line feed, one white space, a hash, digits, the closing bracket *)
Definition pid_token (body : string) (ws : ascii) (ds : string) : string :=
  "[" ++ body ++ String ws ("#" ++ ds ++ "]").

(** a text without the character [c] is one of [differs c] *)
Definition differs (c : ascii) : charset := fun a => negb (Ascii.eqb a c).

(** the text [s] does not go on with a character of the class *)
Definition stops (cs : charset) (s : string) : Prop :=
  match s with
  | EmptyString => True
  | String c _ => cs c = false
  end.

(** ** The records of lines and files

    An extractor is total when it raises on no line; the three extractors
    of the program are. *)

Definition no_raise {E : Type} (X : LogFile E) : Prop :=
  forall line, exists r, extract_additional_data line = Ok r.

(** the record of a line, if it gives one *)
Definition entity_of {E : Type} {X : LogFile E} (line : string) : option E :=
  match _init_entity line with
  | Ok o => o
  | Raise _ => None
  end.

(** the records of the lines of a file, in order *)
Definition entities {E : Type} {X : LogFile E} (lines : list string)
    : list E :=
  flat_map (fun line =>
              match entity_of line with
              | Some e => [e]
              | None => []
              end) lines.

(** the names of a listing that the name filter keeps *)
Definition selected (log_name_pattern : regex) (names : list string)
    : list string :=
  filter (fun n => truthy (re_match log_name_pattern n)) names.

(** the lines of a file of the logs directory ([[]] if it does not open) *)
Definition lines_of (fs : filesystem) (here : string) (n : string)
    : list string :=
  match open_ fs (logs_dir here ++ "/" ++ n) with
  | Ok lines => lines
  | Raise _ => []
  end.

(** the records of the selected files of a listing, in listing order *)
Definition selected_records {E : Type} {X : LogFile E} (fs : filesystem)
    (here : string) (log_name_pattern : regex) (names : list string)
    : list E :=
  flat_map (fun n => entities (lines_of fs here n))
    (selected log_name_pattern names).




(** The output directory can be made, and the extractor's TSV file opened
    and written. *)
Definition writable {E : Type} {X : LogFile E} (out : output)
    (here output_folder : string) : Prop :=
  makedirs_ out (path_join (path_join here "../tmp") output_folder) = Ok tt /\
  open_w out (output_file_path here output_folder) = Ok tt /\
  forall content,
    to_csv_ out (output_file_path here output_folder) content = Ok tt.

(** the files a run of events has created (or emptied) *)
Fixpoint created (t : list event) : list string :=
  match t with
  | [] => []
  | CreateFile p :: t' => p :: created t'
  | _ :: t' => created t'
  end.

(** the number of digits [int] is given by the Metrics extractor for a
    line is within the limit *)
Definition allocation_fits (line : string) : bool :=
  match search Metrics.ALLOCATION_PATTERN line with
  | Some m => String.length (fmt (group m 1)) <=? int_max_str_digits
  | None => true
  end.


(** ** A small installation, for the examples *)

Module Example.

Definition here : string := "/app/extractor".

Definition tab : string := String (ascii_of_nat 9) "".
Definition nl : string := String (ascii_of_nat 10) "".

(** an absent value is an empty cell *)
Definition cell (o : option string) : string :=
  match o with Some s => s | None => "" end.

(** The table of Controller records whose cells need no quoting. *)
Definition csv_header : string := "pid" ++ tab ++ "controller_name" ++ nl.

Definition csv_row (_ : list Controller.DataStruct)
    (d : Controller.DataStruct) : string :=
  cell (Controller.pid d) ++ tab ++ cell (Controller.controller_name d) ++ nl.

Definition no_such_file : outcome (list string) :=
  Raise (OSError "[Errno 2] No such file or directory").

Definition denied : outcome (list string) :=
  Raise (OSError "[Errno 13] Permission denied").

Definition request_line : string := "[App #42] ...Controller#show..." ++ nl.
Definition plain_line : string := "a line without a process id" ++ nl.

(** a logs directory with the given listing and the given files *)
Definition logs (names : list string)
    (files : list (string * outcome (list string))) : filesystem :=
  mkFs (fun p => String.eqb p "/app/extractor/../logs")
       (fun _ => Ok names)
       (fun p =>
          match find (fun f => String.eqb p
                                 ("/app/extractor/../logs/" ++ fst f)) files
          with
          | Some f => snd f
          | None => no_such_file
          end).

(** the first file has a request, the second gives no record *)
Definition two_files : filesystem :=
  logs ["production.log.000001"; "production.log.000002"]
       [("production.log.000001", Ok [request_line]);
        ("production.log.000002", Ok [plain_line])].

(** the same files, listed in the other order *)
Definition two_files_swapped : filesystem :=
  logs ["production.log.000002"; "production.log.000001"]
       [("production.log.000001", Ok [request_line]);
        ("production.log.000002", Ok [plain_line])].

(** the second of three files cannot be opened *)
Definition three_files : filesystem :=
  logs ["production.log.000001"; "production.log.000002";
        "production.log.000003"]
       [("production.log.000001", Ok [request_line]);
        ("production.log.000002", denied);
        ("production.log.000003", Ok [request_line])].

(** no logs directory *)
Definition nothing : filesystem :=
  mkFs (fun _ => false) (fun _ => no_such_file) (fun _ => no_such_file).

(** an output side on which everything succeeds, and one on which no
    directory can be made *)
Definition disk : output :=
  mkOut (fun _ => Ok tt) (fun _ => Ok tt) (fun _ _ => Ok tt).

Definition read_only : output :=
  mkOut (fun _ => Raise (OSError "[Errno 13] Permission denied"))
        (fun _ => Raise (OSError "[Errno 13] Permission denied"))
        (fun _ _ => Raise (OSError "[Errno 13] Permission denied")).

(** an output side on which the file opens and the writing fails *)
Definition full : output :=
  mkOut (fun _ => Ok tt) (fun _ => Ok tt)
        (fun _ _ => Raise (OSError "[Errno 28] No space left on device")).

Definition export (fs : filesystem) (data : list Controller.DataStruct) :=
  export_tsv fs here csv_header csv_row disk (log_name_pattern "production")
    "out" data.


End Example.

(** ** Further notions used by the properties of the program *)

(** a text without a character that [re] reads specially *)
Definition plain (s : string) : bool :=
  Str.all (fun c => negb (Model.special c)) s.

(** a rotated log file name: the environment, any character, [log], any
    character, six digits, and whatever follows *)
Definition rotated_name (env : string) (c1 c2 : ascii) (ds rest : string)
    : string :=
  env ++ String c1 ("log" ++ String c2 (ds ++ rest)).

(** [s[n:]] *)
Fixpoint drop (n : nat) (s : string) : string :=
  match n, s with
  | S n', String _ s' => drop n' s'
  | _, _ => s
  end.

(** the literal [s] followed by the pattern [r] *)
Fixpoint lit_then (s : string) (r : regex) : regex :=
  match s with
  | EmptyString => r
  | String c s' => Lit c +++ lit_then s' r
  end.

(** the table names the Model extractor keeps *)
Definition kept_names (table_names : list string) : list string :=
  filter (fun el => negb (Model.mem el Model.EXCLUDE_CLASS_NAMES)) table_names.

(** the first name of a list that the text starts with *)
Definition first_prefix (names : list string) (s : string) : option string :=
  find (fun n => Str.startswith n s) names.

(** a statement leaves the records of [data_list] in place and appends
    only records that satisfy [P] *)
Definition appends {E A : Type} (P : E -> Prop) (m : M (E := E) A) : Prop :=
  forall d, exists s, snd (fst (m d)) = (d ++ s)%list /\ Forall P s.

(** a statement does nothing to the world but hand records to the logger *)
Definition is_log (e : event) : Prop :=
  match e with
  | Log _ => True
  | _ => False
  end.

Definition only_logs {E A : Type} (m : M (E := E) A) : Prop :=
  forall d, Forall is_log (snd (m d)).

(** the extractor raises on none of the lines *)
Definition safe_lines {E : Type} {X : LogFile E} (lines : list string)
    : Prop :=
  Forall (fun line => exists r, extract_additional_data line = Ok r) lines.

(** every selected file of a listing opens, and the extractor raises on
    none of its lines *)
Definition readable {E : Type} (X : LogFile E) (fs : filesystem)
    (here : string) (log_name_pattern : regex) (names : list string)
    : Prop :=
  forall n, List.In n (selected log_name_pattern names) ->
    exists lines,
      open_ fs (logs_dir here ++ "/" ++ n) = Ok lines /\ safe_lines lines.

(** every selected file of a listing opens, and none of its lines holds
    an allocation count beyond the limit of [int] *)
Definition readable_counts (fs : filesystem) (here : string)
    (log_name_pattern : regex) (names : list string) : Prop :=
  forall n, List.In n (selected log_name_pattern names) ->
    exists lines,
      open_ fs (logs_dir here ++ "/" ++ n) = Ok lines /\
      Forall (fun line => allocation_fits line = true) lines.

(** a record as the engine makes it: the fields the extractor returns for
    some line, with the pid set to a hash and digits *)
Definition correlated {E : Type} {X : LogFile E} (r : E) : Prop :=
  exists line a ds,
    extract_additional_data line = Ok (Some a) /\ is_digits ds = true /\
    r = set_pid a (Some ("#" ++ ds)).

(** Two logs directories with the same listing and the same rotated
    files, and a file [notes.txt] that opens in the first one only. *)
Module Installation.

Definition listing : list string :=
  ["production.log.000001"; "notes.txt"; "production.log.000002"].

Definition with_notes : filesystem :=
  Example.logs listing
    [("production.log.000001", Ok [Example.request_line]);
     ("notes.txt", Ok [Example.request_line]);
     ("production.log.000002", Ok [Example.plain_line])].

Definition notes_denied : filesystem :=
  Example.logs listing
    [("production.log.000001", Ok [Example.request_line]);
     ("notes.txt", Example.denied);
     ("production.log.000002", Ok [Example.plain_line])].

End Installation.

(** ** tasks.py: [export_rails_log_data] *)

Module Tasks.

(** What the task does: the events of the extractors, and the lines it
    prints. *)
Inductive effect : Type :=
| Engine (e : event)
| Print (msg : string).

Fixpoint engine_events (l : list effect) : list event :=
  match l with
  | [] => []
  | Engine e :: l' => e :: engine_events l'
  | Print _ :: l' => engine_events l'
  end.

Fixpoint printed (l : list effect) : list string :=
  match l with
  | [] => []
  | Engine _ :: l' => printed l'
  | Print msg :: l' => msg :: printed l'
  end.

Section Task.

Variable fs : filesystem.
Variable here : string.

(** what pandas writes for the three data classes *)
Variable controller_header : string.
Variable controller_row
  : list Controller.DataStruct -> Controller.DataStruct -> string.
Variable metrics_header : string.
Variable metrics_row : list Metrics.DataStruct -> Metrics.DataStruct -> string.
Variable model_header : string.
Variable model_row : list Model.DataStruct -> Model.DataStruct -> string.

(** What the construction of the Model extractor gets from the database:
    the camel-cased table names, or the exception it raises. *)
Variable model_tables : outcome (list string).

(** the output side of the file system *)
Variable out : output.

(** One round of the loop over the classes:
    [try: instance = cls(); instance.export_tsv(...)
     except Exception as e: print(...)] *)
Definition round {E : Type} (cls_name : string)
    (instance : outcome (LogFile E)) (csv_header : string)
    (csv_row : list E -> E -> string) (log_name_pattern : regex)
    (data_folder : string) : list effect :=
  match instance with
  | Raise e =>
      [Print ("Error exporting data for " ++ cls_name ++ ": " ++ str_exn e)]
  | Ok X =>
      match export_tsv (X := X) fs here csv_header csv_row out
              log_name_pattern data_folder __init__ with
      | (Ok _, _, t) => map Engine t
      | (Raise e, _, t) =>
          (map Engine t
           ++ [Print ("Error exporting data for " ++ cls_name ++ ": "
                      ++ str_exn e)])%list
      end
  end.

Definition export_rails_log_data (data_folder rails_env : string)
    : list effect :=
  let log_name_pattern := log_name_pattern rails_env in
  (round "Controller" (Ok Controller_LogFile) controller_header
     controller_row log_name_pattern data_folder
   ++ round "Metrics" (Ok Metrics_LogFile) metrics_header metrics_row
        log_name_pattern data_folder
   ++ round "Model"
        (table_names <- model_tables ;; Ok (Model_LogFile table_names))
        model_header model_row log_name_pattern data_folder)%list.

End Task.

End Tasks.

(** the TSV file of an extractor for the selected files of a listing, if
    they hold a record *)
Definition tsv_of {E : Type} {X : LogFile E} (fs : filesystem)
    (here csv_header : string) (csv_row : list E -> E -> string)
    (log_name_pattern : regex) (folder : string) (names : list string)
    : list (string * string) :=
  match selected_records fs here log_name_pattern names with
  | [] => []
  | r :: l =>
      [(output_file_path here folder, to_csv csv_header csv_row (r :: l))]
  end.

(** ** Strings: basic facts *)

Lemma app_assoc_s (a b c : string) : (a ++ b) ++ c = a ++ (b ++ c).
Proof. induction a as [|ch a IH]; simpl; [reflexivity | now rewrite IH]. Qed.

Lemma length_app (a b : string) :
  String.length (a ++ b) = String.length a + String.length b.
Proof. induction a as [|ch a IH]; simpl; [reflexivity | now rewrite IH]. Qed.

Lemma substring_prefix (x s : string) :
  substring 0 (String.length x) (x ++ s) = x.
Proof.
  induction x as [|ch x IH]; simpl.
  - now destruct s.
  - now rewrite IH.
Qed.

Lemma consumed_app (x s : string) : Str.consumed (x ++ s) s = x.
Proof.
  unfold Str.consumed. rewrite length_app.
  replace (String.length x + String.length s - String.length s)
    with (String.length x) by lia.
  apply substring_prefix.
Qed.

Lemma consumed_same (s : string) : Str.consumed s s = "".
Proof. exact (consumed_app "" s). Qed.

Lemma all_app cs (a b : string) :
  Str.all cs (a ++ b) = Str.all cs a && Str.all cs b.
Proof.
  induction a as [|ch a IH]; simpl; [reflexivity|].
  now rewrite IH, andb_assoc.
Qed.

(** ** The matcher finds only matches, and finds one when there is one *)

Lemma within_dec_S hi n : can_take hi = true -> within (dec hi) n -> within hi (S n).
Proof. destruct hi as [[|h]|]; simpl; intros; try discriminate; lia. Qed.

Lemma within_S_dec hi n : within hi (S n) -> can_take hi = true /\ within (dec hi) n.
Proof. destruct hi as [[|h]|]; simpl; intros; split; auto; lia. Qed.

Lemma rep_greedy_sound cs s : forall lo hi g k res,
  rep_greedy cs lo hi s g k = Some res ->
  exists x s', s = x ++ s' /\ Str.all cs x = true /\ lo <= String.length x /\
               within hi (String.length x) /\ k s' g = Some res.
Proof.
  induction s as [|c s IH]; intros lo hi g k res H; simpl in H.
  - destruct (Nat.eqb_spec lo 0); [|discriminate]. subst.
    exists "", "". repeat split; auto. destruct hi; simpl; lia.
  - assert (Stop : (if lo =? 0 then k (String c s) g else None) = Some res ->
      exists x s', String c s = x ++ s' /\ Str.all cs x = true /\
        lo <= String.length x /\ within hi (String.length x) /\
        k s' g = Some res).
    { destruct (Nat.eqb_spec lo 0); [|discriminate]. subst. intros Hk.
      exists "", (String c s). repeat split; auto. destruct hi; simpl; lia. }
    destruct (cs c && can_take hi) eqn:Hc; [|auto].
    apply andb_prop in Hc. destruct Hc as [Hc Ht].
    destruct (rep_greedy cs (pred lo) (dec hi) s g k) eqn:Hr; [|auto].
    inversion H; subst. apply IH in Hr.
    destruct Hr as (x & s' & -> & Hx & Hlo & Hhi & Hk).
    exists (String c x), s'. simpl. rewrite Hc, Hx.
    repeat split; auto; [lia | now apply within_dec_S].
Qed.

Lemma rep_lazy_sound cs s : forall lo hi g k res,
  rep_lazy cs lo hi s g k = Some res ->
  exists x s', s = x ++ s' /\ Str.all cs x = true /\ lo <= String.length x /\
               within hi (String.length x) /\ k s' g = Some res.
Proof.
  induction s as [|c s IH]; intros lo hi g k res H; simpl in H.
  - destruct (Nat.eqb_spec lo 0); [|discriminate]. subst.
    destruct (k "" g) eqn:Hk; [|discriminate].
    exists "", "". repeat split; auto; [destruct hi; simpl; lia | congruence].
  - assert (More : (if cs c && can_take hi
                    then rep_lazy cs (pred lo) (dec hi) s g k else None)
                   = Some res ->
      exists x s', String c s = x ++ s' /\ Str.all cs x = true /\
        lo <= String.length x /\ within hi (String.length x) /\
        k s' g = Some res).
    { destruct (cs c && can_take hi) eqn:Hc; [|discriminate].
      apply andb_prop in Hc. destruct Hc as [Hc Ht]. intros Hr.
      apply IH in Hr. destruct Hr as (x & s' & -> & Hx & Hlo & Hhi & Hk).
      exists (String c x), s'. simpl. rewrite Hc, Hx.
      repeat split; auto; [lia | now apply within_dec_S]. }
    destruct (Nat.eqb_spec lo 0); [|auto]. subst.
    destruct (k (String c s) g) eqn:Hk; [|auto].
    exists "", (String c s). repeat split; auto.
    + destruct hi; simpl; lia.
    + congruence.
Qed.

Lemma exec_sound r : forall s g k res,
  exec r s g k = Some res ->
  exists x s' g', s = x ++ s' /\ matches r x g g' /\ k s' g' = Some res.
Proof.
  induction r as [|c|cs|r1 IH1 r2 IH2|r1 IH1 r2 IH2|r1 IH1
                  |greedy lo hi cs|n r1 IH1];
    intros s g k res H; simpl in H.
  - exists "", s, g. repeat split; auto. constructor.
  - destruct s as [|c' s]; [discriminate|].
    destruct (Ascii.eqb_spec c c'); [|discriminate]. subst.
    exists (String c' ""), s, g. repeat split; auto. constructor.
  - destruct s as [|c' s]; [discriminate|].
    destruct (cs c') eqn:Hc; [|discriminate].
    exists (String c' ""), s, g. repeat split; auto. now constructor.
  - apply IH1 in H. destruct H as (x1 & s1 & g1 & -> & M1 & H).
    apply IH2 in H. destruct H as (x2 & s2 & g2 & -> & M2 & H).
    exists (x1 ++ x2), s2, g2. rewrite app_assoc_s.
    repeat split; auto. econstructor; eauto.
  - destruct (exec r1 s g k) eqn:H1.
    + inversion H; subst. apply IH1 in H1.
      destruct H1 as (x & s' & g' & -> & M1 & Hk).
      exists x, s', g'. repeat split; auto. now apply M_AltL.
    + apply IH2 in H. destruct H as (x & s' & g' & -> & M2 & Hk).
      exists x, s', g'. repeat split; auto. now apply M_AltR.
  - destruct (exec r1 s g k) eqn:H1.
    + inversion H; subst. apply IH1 in H1.
      destruct H1 as (x & s' & g' & -> & M1 & Hk).
      exists x, s', g'. repeat split; auto. now apply M_OptSome.
    + exists "", s, g. repeat split; auto. apply M_OptNone.
  - assert (R : exists x s', s = x ++ s' /\ Str.all cs x = true /\
                  lo <= String.length x /\ within hi (String.length x) /\
                  k s' g = Some res).
    { destruct greedy; [eapply rep_greedy_sound | eapply rep_lazy_sound];
        eauto. }
    destruct R as (x & s' & -> & Hx & Hlo & Hhi & Hk).
    exists x, s', g. repeat split; auto. now constructor.
  - apply IH1 in H. destruct H as (x & s' & g' & -> & M1 & Hk).
    rewrite consumed_app in Hk.
    exists x, s', ((n, x) :: g'). repeat split; auto. now constructor.
Qed.

Lemma rep_greedy_complete cs x : forall lo hi s' g k,
  Str.all cs x = true -> lo <= String.length x ->
  within hi (String.length x) -> k s' g <> None ->
  rep_greedy cs lo hi (x ++ s') g k <> None.
Proof.
  induction x as [|c x IH]; intros lo hi s' g k Hx Hlo Hhi Hk.
  - simpl in Hlo. assert (lo = 0) by lia. subst. simpl.
    destruct s' as [|c' s']; simpl; auto.
    destruct (cs c' && can_take hi); auto.
    destruct (rep_greedy cs 0 (dec hi) s' g k); auto. discriminate.
  - simpl in Hx. apply andb_prop in Hx. destruct Hx as [Hc Hx].
    apply within_S_dec in Hhi. destruct Hhi as [Ht Hhi].
    simpl. rewrite Hc, Ht. simpl.
    specialize (IH (pred lo) (dec hi) s' g k Hx).
    destruct (rep_greedy cs (pred lo) (dec hi) (x ++ s') g k).
    + discriminate.
    + exfalso. apply IH; auto. simpl in Hlo. lia.
Qed.

Lemma rep_lazy_complete cs x : forall lo hi s' g k,
  Str.all cs x = true -> lo <= String.length x ->
  within hi (String.length x) -> k s' g <> None ->
  rep_lazy cs lo hi (x ++ s') g k <> None.
Proof.
  induction x as [|c x IH]; intros lo hi s' g k Hx Hlo Hhi Hk.
  - simpl in Hlo. assert (lo = 0) by lia. subst.
    destruct s' as [|c' s']; simpl.
    + destruct (k "" g); [discriminate | contradiction].
    + destruct (k (String c' s') g); [discriminate | contradiction].
  - simpl in Hx. apply andb_prop in Hx. destruct Hx as [Hc Hx].
    apply within_S_dec in Hhi. destruct Hhi as [Ht Hhi].
    simpl. rewrite Hc, Ht. simpl.
    assert (R : rep_lazy cs (pred lo) (dec hi) (x ++ s') g k <> None).
    { apply IH; auto. simpl in Hlo. lia. }
    destruct (lo =? 0); auto.
    destruct (k (String c (x ++ s')) g); auto. discriminate.
Qed.

Lemma exec_complete r x g g' :
  matches r x g g' ->
  forall s' k, k s' g' <> None -> exec r (x ++ s') g k <> None.
Proof.
  induction 1 as [g|c g|cs c g Hc|r1 r2 x1 x2 g g1 g2 M1 IH1 M2 IH2
                  |r1 r2 x g g' M1 IH1|r1 r2 x g g' M2 IH2
                  |r x g g' M1 IH1|r g|greedy lo hi cs x g Hx Hlo Hhi
                  |n r x g g' M1 IH1];
    intros s' k Hk; simpl.
  - exact Hk.
  - now rewrite Ascii.eqb_refl.
  - now rewrite Hc.
  - rewrite app_assoc_s. apply IH1. now apply IH2.
  - specialize (IH1 s' k Hk). destruct (exec r1 (x ++ s') g k);
      [discriminate | contradiction].
  - destruct (exec r1 (x ++ s') g k); [discriminate | now apply IH2].
  - specialize (IH1 s' k Hk). destruct (exec r (x ++ s') g k);
      [discriminate | contradiction].
  - destruct (exec r s' g k); [discriminate | exact Hk].
  - destruct greedy;
      [now apply rep_greedy_complete | now apply rep_lazy_complete].
  - apply IH1. now rewrite consumed_app.
Qed.

(** ** [search]: the leftmost position with a match *)

Lemma match_at_sound r pos s m :
  match_at r pos s = Some m ->
  exists x s', s = x ++ s' /\ m_start m = pos /\ m_text m = x /\
               matches r x [] (m_groups m).
Proof.
  unfold match_at. destruct (exec r s [] accept) as [[s' g]|] eqn:H;
    [|discriminate].
  intros Hm. inversion Hm; subst; clear Hm. simpl.
  apply exec_sound in H. destruct H as (x & s'' & g' & -> & M & Hk).
  inversion Hk; subst. exists x, s'. rewrite consumed_app. auto.
Qed.

Lemma search_from_sound r s : forall pos m,
  search_from r pos s = Some m ->
  exists pre x post, s = pre ++ x ++ post /\
    m_start m = pos + String.length pre /\ m_text m = x /\
    matches r x [] (m_groups m).
Proof.
  induction s as [|c s IH]; intros pos m H; simpl in H.
  - destruct (match_at r pos "") eqn:Hm; [|discriminate].
    inversion H; subst. apply match_at_sound in Hm.
    destruct Hm as (x & s' & E & Hs & Ht & M).
    exists "", x, s'. simpl. repeat split; auto. lia.
  - destruct (match_at r pos (String c s)) eqn:Hm.
    + inversion H; subst. apply match_at_sound in Hm.
      destruct Hm as (x & s' & E & Hs & Ht & M).
      exists "", x, s'. simpl. repeat split; auto. lia.
    + apply IH in H. destruct H as (pre & x & post & -> & Hs & Ht & M).
      exists (String c pre), x, post. simpl. repeat split; auto. lia.
Qed.

Lemma search_sound r s m :
  search r s = Some m ->
  exists pre x post, s = pre ++ x ++ post /\
    m_start m = String.length pre /\ m_text m = x /\
    matches r x [] (m_groups m).
Proof. apply search_from_sound. Qed.

Lemma search_from_complete r x g post pre : forall pos,
  matches r x [] g -> search_from r pos (pre ++ x ++ post) <> None.
Proof.
  intros pos M. revert pos.
  assert (Here : forall pos, match_at r pos (x ++ post) <> None).
  { intros pos. unfold match_at.
    pose proof (exec_complete r x [] g M post accept) as C.
    destruct (exec r (x ++ post) [] accept) as [[s' g']|]; [discriminate|].
    exfalso. apply C; [discriminate | reflexivity]. }
  induction pre as [|c pre IH]; intros pos.
  - change ("" ++ x ++ post) with (x ++ post).
    specialize (Here pos).
    destruct (x ++ post); simpl;
      destruct (match_at r pos _); try discriminate; contradiction.
  - simpl. destruct (match_at r pos _); [discriminate | apply IH].
Qed.

Lemma search_complete r x g pre post :
  matches r x [] g -> search r (pre ++ x ++ post) <> None.
Proof. apply search_from_complete. Qed.

Lemma search_from_here r pos s m :
  match_at r pos s = Some m -> search_from r pos s = Some m.
Proof. intros H. destruct s; simpl; now rewrite H. Qed.

(** No match starts inside [pre]: the search goes on behind it. *)
Lemma search_from_skip r s pre : forall pos,
  (forall p1 p2, pre = p1 ++ p2 -> p2 <> "" ->
                 exec r (p2 ++ s) [] accept = None) ->
  search_from r pos (pre ++ s) = search_from r (pos + String.length pre) s.
Proof.
  induction pre as [|c pre IH]; intros pos Hno.
  - simpl. now rewrite Nat.add_0_r.
  - assert (E : match_at r pos (String c pre ++ s) = None).
    { unfold match_at. rewrite (Hno "" (String c pre)); auto. discriminate. }
    simpl String.append in *. simpl. rewrite E.
    rewrite IH.
    + f_equal. simpl. lia.
    + intros p1 p2 -> Hp. apply (Hno (String c p1) p2); auto.
Qed.

(** A pattern that starts with a literal does not match inside a text
    without that character. *)
Lemma search_from_skip_lit c r s pre pos :
  Str.all (differs c) pre = true ->
  search_from (Lit c +++ r) pos (pre ++ s) =
  search_from (Lit c +++ r) (pos + String.length pre) s.
Proof.
  intros Hpre. apply search_from_skip. intros p1 p2 -> Hp.
  rewrite all_app in Hpre. apply andb_prop in Hpre. destruct Hpre as [_ H2].
  destruct p2 as [|a p2]; [contradiction|].
  simpl in H2. apply andb_prop in H2. destruct H2 as [Ha _].
  unfold differs in Ha. simpl.
  rewrite Ascii.eqb_sym. now destruct (Ascii.eqb a c).
Qed.

(** ** Greedy and lazy repetitions, computed *)

(** A greedy repetition takes the whole run when the rest matches. *)
Lemma rep_greedy_run cs x : forall lo s' g k res,
  Str.all cs x = true -> lo <= String.length x -> stops cs s' ->
  k s' g = Some res ->
  rep_greedy cs lo None (x ++ s') g k = Some res.
Proof.
  induction x as [|c x IH]; intros lo s' g k res Hx Hlo Hs Hk.
  - simpl in Hlo. assert (lo = 0) by lia. subst. simpl.
    destruct s' as [|c' s']; simpl; auto.
    simpl in Hs. now rewrite Hs.
  - simpl in Hx. apply andb_prop in Hx. destruct Hx as [Hc Hx].
    simpl. rewrite Hc. simpl.
    rewrite (IH (pred lo) s' g k res); auto. simpl in Hlo. lia.
Qed.

(** A lazy repetition stops at the first place where the rest matches. *)
Lemma rep_lazy_first cs x : forall s' g k res,
  Str.all cs x = true ->
  (forall x1 x2, x = x1 ++ x2 -> x2 <> "" -> k (x2 ++ s') g = None) ->
  k s' g = Some res ->
  rep_lazy cs 0 None (x ++ s') g k = Some res.
Proof.
  induction x as [|c x IH]; intros s' g k res Hx Hno Hk.
  - simpl. destruct s'; simpl; now rewrite Hk.
  - simpl in Hx. apply andb_prop in Hx. destruct Hx as [Hc Hx].
    assert (H0 : k (String c x ++ s') g = None)
      by (apply (Hno "" (String c x)); [reflexivity | discriminate]).
    simpl in H0. simpl. rewrite H0, Hc. simpl. apply IH; auto.
    intros x1 x2 -> Hx2. apply (Hno (String c x1) x2); auto.
Qed.

(** ** The process-ID pattern *)

Ltac inv_matches :=
  repeat match goal with
  | H : matches (Cat _ _) _ _ _ |- _ => inversion H; subst; clear H
  | H : matches (Lit _) _ _ _ |- _ => inversion H; subst; clear H
  | H : matches (OneOf _) _ _ _ |- _ => inversion H; subst; clear H
  | H : matches (Group _ _) _ _ _ |- _ => inversion H; subst; clear H
  | H : matches (Rep _ _ _ _) _ _ _ |- _ => inversion H; subst; clear H
  | H : matches (Opt _) _ _ _ |- _ => inversion H; subst; clear H
  | H : matches Empty _ _ _ |- _ => inversion H; subst; clear H
  end.

Lemma is_digits_intro ds :
  Str.all digit ds = true -> 1 <= String.length ds -> is_digits ds = true.
Proof.
  intros Ha Hl. unfold is_digits. rewrite Ha.
  destruct ds; simpl in *; [lia | reflexivity].
Qed.

Lemma is_digits_elim ds :
  is_digits ds = true -> Str.all digit ds = true /\ 1 <= String.length ds.
Proof.
  unfold is_digits. intros H. apply andb_prop in H. destruct H as [Ha Hn].
  split; auto. destruct ds; simpl in *; [discriminate | lia].
Qed.

Lemma PID_matches_shape x g :
  matches PID_PATTERN x [] g ->
  exists body ws ds,
    x = pid_token body ws ds /\ Str.all dot body = true /\
    space ws = true /\ is_digits ds = true /\ g = [(1, "#" ++ ds)].
Proof.
  unfold PID_PATTERN, lazy_star. intros M. inv_matches.
  match goal with
  | Hb : Str.all dot ?b = true, Hw : space ?w = true,
    Hd : Str.all digit ?d = true |- _ =>
      exists b, w, d
  end.
  repeat split; auto; try (now apply is_digits_intro).
  all: unfold pid_token; simpl; now rewrite ?app_assoc_s.
Qed.

Lemma PID_token_matches body ws ds :
  Str.all dot body = true -> space ws = true -> is_digits ds = true ->
  matches PID_PATTERN (pid_token body ws ds) [] [(1, "#" ++ ds)].
Proof.
  intros Hb Hw Hd. apply is_digits_elim in Hd. destruct Hd as [Hd Hl].
  unfold PID_PATTERN, lazy_star, pid_token.
  change ("[" ++ body ++ String ws ("#" ++ ds ++ "]"))
    with (String "[" "" ++ body ++ String ws "" ++ ("#" ++ ds) ++ "]").
  repeat first
    [ apply M_Lit | apply M_In; assumption | apply M_Group
    | apply M_Rep; [assumption | simpl; lia | exact I]
    | eapply M_Cat ].
Qed.

Lemma pid_token_app body ws ds post :
  pid_token body ws ds ++ post =
  String "[" (body ++ String ws (String "#" (ds ++ String "]" post))).
Proof.
  unfold pid_token. simpl. rewrite !app_assoc_s. simpl.
  now rewrite !app_assoc_s.
Qed.

Lemma space_not_hash ws : space ws = true -> Ascii.eqb "#" ws = false.
Proof.
  intros H. destruct (Ascii.eqb_spec "#" ws); [|reflexivity].
  subst. discriminate.
Qed.

Lemma digit_not_bracket : digit "]"%char = false.
Proof. reflexivity. Qed.

(** At a token whose bracket holds no hash, the pattern matches exactly
    the token, and group 1 is the hash with the digits. *)
Lemma PID_exec_token body ws ds post :
  Str.all dot body = true -> Str.all (differs "#") body = true ->
  space ws = true -> is_digits ds = true ->
  exec PID_PATTERN (pid_token body ws ds ++ post) [] accept
  = Some (post, [(1, "#" ++ ds)]).
Proof.
  intros Hb Hh Hw Hd. apply is_digits_elim in Hd. destruct Hd as [Hd Hl].
  rewrite pid_token_app. unfold PID_PATTERN, lazy_star.
  cbn [exec]. rewrite Ascii.eqb_refl.
  apply rep_lazy_first; auto.
  - intros x1 x2 -> Hx2.
    rewrite all_app in Hh. apply andb_prop in Hh. destruct Hh as [_ Hh].
    destruct x2 as [|a x2]; [contradiction|].
    simpl in Hh. apply andb_prop in Hh. destruct Hh as [_ Hh].
    simpl String.append. cbv beta iota.
    destruct (space a); [|reflexivity].
    destruct x2 as [|b x2]; simpl String.append; cbv beta iota.
    + now rewrite (space_not_hash ws Hw).
    + simpl in Hh. apply andb_prop in Hh. destruct Hh as [Hb' _].
      unfold differs in Hb'. rewrite Ascii.eqb_sym.
      now destruct (Ascii.eqb b "#").
  - cbv beta iota. rewrite Hw. rewrite Ascii.eqb_refl.
    apply rep_greedy_run; auto; [reflexivity|]. cbv beta iota.
    rewrite Ascii.eqb_refl. unfold accept.
    change (String "#" (ds ++ String "]" post))
      with (("#" ++ ds) ++ String "]" post).
    now rewrite consumed_app.
Qed.

Lemma PID_search_token pre body ws ds post :
  Str.all (differs "[") pre = true ->
  Str.all dot body = true -> Str.all (differs "#") body = true ->
  space ws = true -> is_digits ds = true ->
  search PID_PATTERN (pre ++ pid_token body ws ds ++ post)
  = Some (mkMatch (String.length pre) (pid_token body ws ds)
            [(1, "#" ++ ds)]).
Proof.
  intros Hp Hb Hh Hw Hd. unfold search.
  unfold PID_PATTERN at 1. rewrite search_from_skip_lit by assumption.
  fold PID_PATTERN. simpl Nat.add.
  assert (E : match_at PID_PATTERN (String.length pre)
                (pid_token body ws ds ++ post)
              = Some (mkMatch (String.length pre) (pid_token body ws ds)
                        [(1, "#" ++ ds)])).
  { unfold match_at. rewrite PID_exec_token by assumption.
    now rewrite consumed_app. }
  now apply search_from_here.
Qed.

(** ** Literals, and the patterns of the Metrics extractor *)

Lemma matches_lit s : forall x g g',
  matches (lit s) x g g' -> x = s /\ g' = g.
Proof.
  induction s as [|c s IH]; intros x g g' M; simpl in M.
  - inversion M; subst. auto.
  - inversion M; subst; clear M.
    match goal with H : matches (Lit _) _ _ _ |- _ =>
      inversion H; subst; clear H end.
    match goal with H : matches (lit _) _ _ _ |- _ =>
      apply IH in H; destruct H as [-> ->] end.
    auto.
Qed.

Lemma millis_matches_shape label x g :
  matches (Metrics.millis label) x [] g ->
  exists D, is_digits D = true /\
    ((x = label ++ D ++ "ms" /\ g = [(1, D)]) \/
     (exists F, is_digits F = true /\
        x = label ++ D ++ "." ++ F ++ "ms" /\ g = [(2, F); (1, D)])).
Proof.
  unfold Metrics.millis, plus. intros M.
  inversion M as [| | |r1 r2 x1 x2 g0 g1 g2 M1 M2| | | | | |];
    subst; clear M.
  apply matches_lit in M1. destruct M1 as [-> ->].
  inversion M2 as [| | |r1 r2 x1 x3 g0 g1 g3 M3 M4| | | | | |];
    subst; clear M2.
  inversion M4 as [| | |r1 r2 x4 x5 g0 g4 g5 M5 M6| | | | | |];
    subst; clear M4.
  apply (matches_lit "ms") in M6. destruct M6 as [-> ->].
  inv_matches.
  - match goal with |- context [(1, ?d) :: []] => exists d end.
    split; [now apply is_digits_intro|]. right.
    match goal with |- context [(2, ?f) :: _] => exists f end.
    repeat split; auto; try (now apply is_digits_intro).
    all: simpl; now rewrite ?app_assoc_s.
  - match goal with |- context [(1, ?d) :: []] => exists d end.
    split; [now apply is_digits_intro|]. left. split; auto.
Qed.

Lemma allocation_matches_shape x g :
  matches Metrics.ALLOCATION_PATTERN x [] g ->
  exists D, is_digits D = true /\ x = "Allocations: " ++ D /\ g = [(1, D)].
Proof.
  unfold Metrics.ALLOCATION_PATTERN, plus. intros M.
  inversion M as [| | |r1 r2 x1 x2 g0 g1 g2 M1 M2| | | | | |];
    subst; clear M.
  apply (matches_lit "Allocations: ") in M1. destruct M1 as [-> ->].
  inv_matches.
  match goal with |- context [(1, ?d) :: []] => exists d end.
  repeat split; auto. now apply is_digits_intro.
Qed.

(** ** Decimal numbers *)

Lemma digits_value_app a : forall acc b,
  digits_value acc (a ++ b) = digits_value (digits_value acc a) b.
Proof. induction a as [|c a IH]; intros acc b; simpl; auto. Qed.

Lemma digits_value_acc s : forall acc,
  digits_value acc s
  = (acc * 10 ^ N.of_nat (String.length s) + digits_value 0 s)%N.
Proof.
  induction s as [|c s IH]; intros acc.
  - simpl. lia.
  - cbn [digits_value String.length]. rewrite IH.
    rewrite (IH (0 * 10 + _)%N). rewrite Nat2N.inj_succ, N.pow_succ_r'. lia.
Qed.

Lemma digit_not_point : digit "."%char = false.
Proof. reflexivity. Qed.

Lemma split_point_digits D F :
  Str.all digit D = true ->
  Decimal.split_point (D ++ "." ++ F) = (D, Some F).
Proof.
  induction D as [|c D IH]; intros H.
  - reflexivity.
  - simpl in H. apply andb_prop in H. destruct H as [Hc HD].
    simpl. destruct (Ascii.eqb_spec c ".").
    + subst. discriminate.
    + simpl in IH. now rewrite IH.
Qed.

Lemma of_string_digits D F :
  is_digits D = true -> Str.all digit F = true ->
  Decimal.of_string (D ++ "." ++ F)
  = Ok (Decimal.mk false (digits_value 0 (D ++ F))
          (- Z.of_nat (String.length F))).
Proof.
  intros HD HF. apply is_digits_elim in HD. destruct HD as [HD Hl].
  unfold Decimal.of_string. rewrite split_point_digits by assumption.
  rewrite HD, HF. destruct D; [simpl in Hl; lia | reflexivity].
Qed.

Lemma value_point D F :
  (Decimal.value (Decimal.mk false (digits_value 0 (D ++ F))
                    (- Z.of_nat (String.length F)))
   == Decimal.number D + Decimal.number F / inject_Z (10 ^ Z.of_nat (String.length F)))%Q.
Proof.
  unfold Decimal.value, Decimal.number. cbn [Decimal.sign Decimal.coefficient
                                     Decimal.exponent].
  rewrite digits_value_app, digits_value_acc.
  rewrite N2Z.inj_add, N2Z.inj_mul, N2Z.inj_pow, nat_N_Z.
  change (Z.of_N 10) with 10%Z.
  set (n := Z.of_nat (String.length F)).
  assert (Hn : (0 <= n)%Z) by (unfold n; lia).
  rewrite Qpower_opp.
  change (10 # 1)%Q with (inject_Z 10).
  rewrite <- Zpower_Qpower by assumption.
  rewrite inject_Z_plus, inject_Z_mult.
  assert (P : ~ (inject_Z (10 ^ n) == 0)%Q).
  { intros H. unfold Qeq in H. simpl in H.
    assert (0 < 10 ^ n)%Z by (apply Z.pow_pos_nonneg; lia). lia. }
  field. exact P.
Qed.

Lemma search_groups_millis label line m :
  search (Metrics.millis label) line = Some m ->
  exists D, is_digits D = true /\
    ((m_text m = label ++ D ++ "ms" /\ m_groups m = [(1, D)]) \/
     (exists F, is_digits F = true /\
        m_text m = label ++ D ++ "." ++ F ++ "ms" /\
        m_groups m = [(2, F); (1, D)])).
Proof.
  intros H. apply search_sound in H.
  destruct H as (pre & x & post & _ & _ & Ht & M).
  apply millis_matches_shape in M. rewrite Ht. exact M.
Qed.

Lemma is_digits_truthy F : is_digits F = true -> truthy_str (Some F) = true.
Proof.
  intros H. apply is_digits_elim in H. destruct H as [_ H].
  destruct F; simpl in *; [lia | reflexivity].
Qed.

Lemma digits_value_zero D :
  digits_value 0 (D ++ "0") = (digits_value 0 D * 10)%N.
Proof. rewrite digits_value_app. simpl. lia. Qed.

(** What [__extract_decimal] returns for a match of a millisecond
    pattern: it does not raise, and the decimal is built from the digits
    of the two groups. *)
Lemma extract_decimal_millis label line m :
  search (Metrics.millis label) line = Some m ->
  exists D, is_digits D = true /\
    ((m_text m = label ++ D ++ "ms" /\ group m 2 = None /\
      Metrics.__extract_decimal m
      = Ok (Decimal.mk false (digits_value 0 D * 10) (-1))) \/
     (exists F, is_digits F = true /\
        m_text m = label ++ D ++ "." ++ F ++ "ms" /\ group m 2 = Some F /\
        Metrics.__extract_decimal m
        = Ok (Decimal.mk false (digits_value 0 (D ++ F))
                (- Z.of_nat (String.length F))))).
Proof.
  intros H. apply search_groups_millis in H.
  destruct H as (D & HD & [[Ht Hg] | (F & HF & Ht & Hg)]); exists D;
    (split; [assumption|]).
  - left. unfold Metrics.__extract_decimal, group. rewrite Hg. simpl.
    repeat split; auto.
    change (D ++ ".0") with (D ++ "." ++ "0").
    rewrite (of_string_digits D "0") by auto.
    now rewrite digits_value_zero.
  - right. exists F. unfold Metrics.__extract_decimal, group. rewrite Hg.
    cbn [lookup Nat.eqb]. rewrite is_digits_truthy by assumption.
    cbn [fmt]. repeat split; auto.
    apply of_string_digits; auto.
    now apply is_digits_elim in HF.
Qed.

Lemma extract_decimal_ok label line m :
  search (Metrics.millis label) line = Some m ->
  exists d, Metrics.__extract_decimal m = Ok d.
Proof.
  intros H. apply extract_decimal_millis in H.
  destruct H as (D & _ & [(_ & _ & E) | (F & _ & _ & _ & E)]); eauto.
Qed.

Lemma allocation_int_ok line m :
  search Metrics.ALLOCATION_PATTERN line = Some m ->
  exists D, is_digits D = true /\ group m 1 = Some D /\
            int (group m 1)
            = if String.length D <=? int_max_str_digits
              then Ok (Z.of_N (digits_value 0 D)) else Raise ValueError.
Proof.
  intros H. apply search_sound in H.
  destruct H as (pre & x & post & _ & _ & Ht & M).
  apply allocation_matches_shape in M. destruct M as (D & HD & _ & Hg).
  exists D. unfold group. rewrite Hg. cbn [lookup Nat.eqb].
  unfold int. rewrite HD. auto.
Qed.

(** ** The Process-ID Correlator *)

Lemma PID_search_groups line m :
  search PID_PATTERN line = Some m ->
  exists body ws ds,
    m_text m = pid_token body ws ds /\ Str.all dot body = true /\
    space ws = true /\ is_digits ds = true /\ group m 1 = Some ("#" ++ ds).
Proof.
  intros H. apply search_sound in H.
  destruct H as (pre & x & post & _ & _ & Ht & M).
  apply PID_matches_shape in M.
  destruct M as (body & ws & ds & -> & Hb & Hw & Hd & Hg).
  exists body, ws, ds. unfold group. rewrite Hg. auto.
Qed.

(** The pattern finds a token exactly in the lines that have one. *)
Lemma PID_search_some_iff line :
  search PID_PATTERN line <> None <->
  exists pre body ws ds post,
    line = pre ++ pid_token body ws ds ++ post /\ Str.all dot body = true /\
    space ws = true /\ is_digits ds = true.
Proof.
  split.
  - destruct (search PID_PATTERN line) as [m|] eqn:H; [|contradiction].
    intros _. apply search_sound in H.
    destruct H as (pre & x & post & -> & _ & _ & M).
    apply PID_matches_shape in M.
    destruct M as (body & ws & ds & -> & Hb & Hw & Hd & _).
    exists pre, body, ws, ds, post. auto.
  - intros (pre & body & ws & ds & post & -> & Hb & Hw & Hd).
    eapply search_complete. now apply PID_token_matches.
Qed.

(** C1, as the claim states it, fails: for the line of Scenario A the
    Controller record is produced and its pid is the text [#42], with the
    hash, and not [42]. *)
Lemma pid_digits_only_counterexample :
  exists r,
    _init_entity (X := Controller_LogFile) "[App #42] ...Controller#show..."
    = Ok (Some r) /\
    Controller.pid r = Some "#42" /\ Controller.pid r <> Some "42".
Proof.
  eexists. split; [vm_compute; reflexivity|].
  split; [reflexivity | discriminate].
Qed.

(** C1, amended: for every log line containing a bracketed process-ID
    token [[... #<digits>]], the Process-ID Correlator matches and returns
    a hash-prefixed numeral (the hash and the digits of group 1); when no
    bracket opens before the token and the token's bracket holds no other
    hash, it is the numeral of that token.  A line that also matches the
    Controller pattern yields a Record whose pid field is that text: for a
    line starting with [[App #42]] it is [#42]. *)
Theorem pid_is_hash_numeral pre body ws ds post :
  Str.all dot body = true -> space ws = true -> is_digits ds = true ->
  exists m ds',
    search PID_PATTERN (pre ++ pid_token body ws ds ++ post) = Some m /\
    is_digits ds' = true /\ group m 1 = Some ("#" ++ ds') /\
    (Str.all (differs "[") pre = true ->
     Str.all (differs "#") body = true -> ds' = ds) /\
    (forall c,
       search Controller.PATTERN (pre ++ pid_token body ws ds ++ post)
       = Some c ->
       _init_entity (X := Controller_LogFile)
         (pre ++ pid_token body ws ds ++ post)
       = Ok (Some (Controller.mkData (Some ("#" ++ ds'))
                     (Some (m_text c))))).
Proof.
  intros Hb Hw Hd.
  destruct (search PID_PATTERN (pre ++ pid_token body ws ds ++ post))
    as [m|] eqn:Hs.
  - destruct (PID_search_groups _ _ Hs)
      as (body' & ws' & ds' & Ht & Hb' & Hw' & Hd' & Hg).
    exists m, ds'. repeat split; auto.
    + intros Hp Hh.
      rewrite (PID_search_token pre body ws ds post) in Hs by assumption.
      inversion Hs; subst m; clear Hs. unfold group in Hg. simpl in Hg.
      inversion Hg as [E]. revert E. clear. revert ds'.
      induction ds as [|a ds IH]; intros [|b ds'] E; try discriminate; auto.
    + intros c Hc. unfold _init_entity. rewrite Hs.
      cbn [extract_additional_data set_pid Controller_LogFile].
      unfold Controller.extract_additional_data. rewrite Hc.
      cbn [Py.bind]. unfold Controller.set_pid. now rewrite Hg.
  - exfalso. revert Hs. apply PID_search_some_iff.
    exists pre, body, ws, ds, post. auto.
Qed.

Lemma pid_is_hash_numeral_witness :
  exists m ds',
    search PID_PATTERN ("" ++ pid_token "App" " " "42"
                           ++ " ...Controller#show...") = Some m /\
    is_digits ds' = true /\ group m 1 = Some ("#" ++ ds') /\
    (Str.all (differs "[") "" = true ->
     Str.all (differs "#") "App" = true -> ds' = "42") /\
    (forall c,
       search Controller.PATTERN ("" ++ pid_token "App" " " "42"
                                     ++ " ...Controller#show...")
       = Some c ->
       _init_entity (X := Controller_LogFile)
         ("" ++ pid_token "App" " " "42" ++ " ...Controller#show...")
       = Ok (Some (Controller.mkData (Some ("#" ++ ds'))
                     (Some (m_text c))))).
Proof.
  apply (pid_is_hash_numeral "" "App" " " "42" " ...Controller#show...");
    reflexivity.
Defined.

(** Scenario A, evaluated. *)
Example scenario_A :
  _init_entity (X := Controller_LogFile) "[App #42] ...Controller#show..."
  = Ok (Some (Controller.mkData (Some "#42") (Some "Controller#show..."))).
Proof. vm_compute. reflexivity. Qed.

(** C2: for every log line in which the process-ID pattern does not match,
    no Record is produced and nothing is appended to the Accumulated
    Record Set, whatever the extractor and whatever it would extract from
    the line. *)
Theorem no_pid_no_record {E : Type} {X : LogFile E} (line : string)
    (data : list E) :
  search PID_PATTERN line = None ->
  _init_entity line = Ok None /\
  convert_line line data = (Ok tt, data, []).
Proof.
  intros H. assert (I : _init_entity line = Ok None).
  { unfold _init_entity. now rewrite H. }
  split; [exact I|].
  unfold convert_line, seq, lift. now rewrite I.
Qed.

Lemma no_pid_no_record_witness :
  Metrics.extract_additional_data "INFO Views: 5ms" <> Ok None /\
  _init_entity (X := Metrics_LogFile) "INFO Views: 5ms" = Ok None /\
  convert_line (X := Metrics_LogFile) "INFO Views: 5ms" [] = (Ok tt, [], []).
Proof.
  split; [vm_compute; discriminate|].
  apply (no_pid_no_record (X := Metrics_LogFile) "INFO Views: 5ms" []).
  reflexivity.
Defined.

(** A file none of whose lines has a process-ID token adds nothing. *)
Lemma file_without_pid_adds_nothing {E : Type} {X : LogFile E}
    (lines : list string) : forall data : list E,
  Forall (fun line => search PID_PATTERN line = None) lines ->
  for_each lines convert_line data = (Ok tt, data, []).
Proof.
  induction lines as [|l lines IH]; intros data H.
  - reflexivity.
  - inversion H as [|l' lines' Hl Hrest]; subst.
    cbn [for_each]. unfold seq.
    assert (C : convert_line l data = (Ok tt, data, [])).
    { unfold convert_line, seq, lift, _init_entity. now rewrite Hl. }
    rewrite C. now rewrite IH.
Qed.

(** ** The Metrics extractor *)

(** What the Metrics extractor returns for a line tagged INFO with a
    rendering time, when the allocation count is within the limit of
    [int]. *)
Lemma metrics_extract_fits line v d :
  Str.contains "INFO" line = true ->
  search Metrics.VIEWS_PATTERN line = Some v ->
  Metrics.__extract_decimal v = Ok d ->
  allocation_fits line = true ->
  exists od oa,
    Metrics.extract_additional_data line
    = Ok (Some (Metrics.mkData None (Some d) od oa)) /\
    (od <> None <-> search Metrics.DURATION_PATTERN line <> None) /\
    (oa <> None <-> search Metrics.ALLOCATION_PATTERN line <> None).
Proof.
  intros HI HV Hd Hfit. unfold Metrics.extract_additional_data.
  rewrite HI, HV. cbn [negb Py.all forallb truthy andb].
  rewrite Hd. cbn [Py.bind].
  assert (Hdu : exists od,
    match search Metrics.DURATION_PATTERN line with
    | Some m => d <- Metrics.__extract_decimal m ;; Ok (Some d)
    | None => Ok None
    end = Ok od /\
    (od <> None <-> search Metrics.DURATION_PATTERN line <> None)).
  { destruct (search Metrics.DURATION_PATTERN line) as [m|] eqn:Em.
    - destruct (extract_decimal_ok _ _ _ Em) as [dd Hdd].
      exists (Some dd). rewrite Hdd. cbn [Py.bind]. split; [reflexivity|].
      split; discriminate.
    - exists None. split; [reflexivity|]. split; auto. }
  assert (Ha : exists oa,
    match search Metrics.ALLOCATION_PATTERN line with
    | Some m => n <- int (group m 1) ;; Ok (Some n)
    | None => Ok None
    end = Ok oa /\
    (oa <> None <-> search Metrics.ALLOCATION_PATTERN line <> None)).
  { unfold allocation_fits in Hfit.
    destruct (search Metrics.ALLOCATION_PATTERN line) as [m|] eqn:Em.
    - destruct (allocation_int_ok _ _ Em) as (D & _ & Hg & Hn).
      rewrite Hg in Hfit. cbn [fmt] in Hfit. rewrite Hfit in Hn.
      eexists (Some _). rewrite Hn. cbn [Py.bind]. split; [reflexivity|].
      split; discriminate.
    - exists None. split; [reflexivity|]. split; auto. }
  destruct Hdu as (od & Hdu & Hdi). destruct Ha as (oa & Ha & Hai).
  exists od, oa. rewrite Hdu. cbn [Py.bind]. rewrite Ha. cbn [Py.bind].
  auto.
Qed.





(** Scenario C, and a line with the two optional tokens but no Views. *)
Example scenario_C :
  _init_entity (X := Metrics_LogFile) "INFO ... Views: 5ms [Job #7]"
  = Ok (Some (Metrics.mkData (Some "#7")
                (Some (Decimal.mk false 50 (-1))) None None)).
Proof. vm_compute. reflexivity. Qed.

Example no_views_no_record :
  _init_entity (X := Metrics_LogFile)
    "INFO ... ActiveRecord: 3ms Allocations: 400 [Job #7]"
  = Ok None.
Proof. vm_compute. reflexivity. Qed.

(** C4: for every match of a millisecond pattern, the extracted value is
    a decimal built exactly from the matched digits: the token [D.Fms]
    gives the decimal whose value is the rational D + F / 10^|F|, and the
    token [Dms], without fractional digits, gives D.0, whose value is
    D. *)
Theorem millis_decimal_exact (label line : string) (m : Match) :
  search (Metrics.millis label) line = Some m ->
  exists D d,
    is_digits D = true /\ Metrics.__extract_decimal m = Ok d /\
    ((m_text m = label ++ D ++ "ms" /\
      d = Decimal.mk false (digits_value 0 D * 10) (-1) /\
      (Decimal.value d == Decimal.number D)%Q) \/
     (exists F, is_digits F = true /\
        m_text m = label ++ D ++ "." ++ F ++ "ms" /\
        d = Decimal.mk false (digits_value 0 (D ++ F))
              (- Z.of_nat (String.length F)) /\
        (Decimal.value d
         == Decimal.number D
            + Decimal.number F / inject_Z (10 ^ Z.of_nat (String.length F)))%Q)).
Proof.
  intros H. apply extract_decimal_millis in H.
  destruct H as (D & HD & [(Ht & _ & E) | (F & HF & Ht & _ & E)]);
    exists D; eexists; (split; [exact HD|]); (split; [exact E|]).
  - left. repeat split; auto.
    rewrite <- digits_value_zero.
    change (-1)%Z with (- Z.of_nat (String.length "0"))%Z.
    rewrite value_point. unfold Decimal.number at 2. simpl.
    unfold Qdiv. rewrite Qmult_0_l. apply Qplus_0_r.
  - right. exists F. repeat split; auto. apply value_point.
Qed.

Lemma millis_decimal_exact_witness :
  exists D d,
    is_digits D = true /\
    Metrics.__extract_decimal
      (mkMatch 9 "Views: 12.5ms" [(2, "5"); (1, "12")]) = Ok d /\
    (("Views: 12.5ms" = "Views: " ++ D ++ "ms" /\
      d = Decimal.mk false (digits_value 0 D * 10) (-1) /\
      (Decimal.value d == Decimal.number D)%Q) \/
     (exists F, is_digits F = true /\
        "Views: 12.5ms" = "Views: " ++ D ++ "." ++ F ++ "ms" /\
        d = Decimal.mk false (digits_value 0 (D ++ F))
              (- Z.of_nat (String.length F)) /\
        (Decimal.value d
         == Decimal.number D
            + Decimal.number F / inject_Z (10 ^ Z.of_nat (String.length F)))%Q)).
Proof.
  apply (millis_decimal_exact "Views: "
           "INFO ... Views: 12.5ms ActiveRecord: 3ms Allocations: 400 [Job #7]"
           (mkMatch 9 "Views: 12.5ms" [(2, "5"); (1, "12")])).
  vm_compute. reflexivity.
Defined.

(** Scenario B: 12.5 is 125 * 10^-1 = 25/2 and 3.0 is 30 * 10^-1 = 3. *)
Example scenario_B :
  _init_entity (X := Metrics_LogFile)
    "INFO ... Views: 12.5ms ActiveRecord: 3ms Allocations: 400 [Job #7]"
  = Ok (Some (Metrics.mkData (Some "#7")
                (Some (Decimal.mk false 125 (-1)))
                (Some (Decimal.mk false 30 (-1))) (Some 400%Z)))
  /\ (Decimal.value (Decimal.mk false 125 (-1)) == 25 # 2)%Q
  /\ (Decimal.value (Decimal.mk false 30 (-1)) == 3 # 1)%Q.
Proof. split; [vm_compute; reflexivity|]. split; reflexivity. Qed.

(** The tokens are read as written: the greedy groups take all the
    digits in front of and behind the point. *)
Lemma exec_lit_app s : forall t g k, exec (lit s) (s ++ t) g k = k t g.
Proof.
  induction s as [|c s IH]; intros t g k; simpl.
  - reflexivity.
  - rewrite Ascii.eqb_refl. apply IH.
Qed.

Lemma digit_not_m : digit "m"%char = false.
Proof. reflexivity. Qed.

Lemma millis_exec_fraction label D F post :
  is_digits D = true -> is_digits F = true ->
  exec (Metrics.millis label) (label ++ D ++ "." ++ F ++ "ms" ++ post)
    [] accept
  = Some (post, [(2, F); (1, D)]).
Proof.
  intros HD HF. apply is_digits_elim in HD. apply is_digits_elim in HF.
  destruct HD as [HD LD]. destruct HF as [HF LF].
  unfold Metrics.millis, plus. cbn [exec]. rewrite exec_lit_app.
  rewrite (rep_greedy_run digit D 1 ("." ++ F ++ "ms" ++ post) []
             _ (post, [(2, F); (1, D)])); auto.
  - exact digit_not_point.
  - cbv beta. rewrite consumed_app.
    simpl String.append. cbv iota. rewrite Ascii.eqb_refl.
    rewrite (rep_greedy_run digit F 1 ("ms" ++ post) [(1, D)]
               _ (post, [(2, F); (1, D)])); auto.
    + exact digit_not_m.
    + cbv beta. rewrite consumed_app.
      exact (exec_lit_app "ms" post _ accept).
Qed.

Lemma millis_exec_whole label D post :
  is_digits D = true ->
  exec (Metrics.millis label) (label ++ D ++ "ms" ++ post) [] accept
  = Some (post, [(1, D)]).
Proof.
  intros HD. apply is_digits_elim in HD. destruct HD as [HD LD].
  unfold Metrics.millis, plus. cbn [exec]. rewrite exec_lit_app.
  rewrite (rep_greedy_run digit D 1 ("ms" ++ post) []
             _ (post, [(1, D)])); auto.
  - exact digit_not_m.
  - cbv beta. rewrite consumed_app. simpl String.append. cbv iota.
    change (("." =? "m")%char) with false. cbv iota.
    exact (exec_lit_app "ms" post _ accept).
Qed.

Lemma millis_skip c l pre s pos :
  Str.all (differs c) pre = true ->
  search_from (Metrics.millis (String c l)) pos (pre ++ s)
  = search_from (Metrics.millis (String c l)) (pos + String.length pre) s.
Proof.
  intros Hpre. apply search_from_skip. intros p1 p2 -> Hp.
  rewrite all_app in Hpre. apply andb_prop in Hpre. destruct Hpre as [_ H2].
  destruct p2 as [|a p2]; [contradiction|].
  simpl in H2. apply andb_prop in H2. destruct H2 as [Ha _].
  unfold differs in Ha. unfold Metrics.millis. simpl.
  rewrite Ascii.eqb_sym. now destruct (Ascii.eqb a c).
Qed.

(** A token [label D.F ms] behind a text without the first character of
    the label gives the decimal D.F, and [label D ms] gives D.0. *)
Lemma millis_token_fraction c l pre D F post :
  Str.all (differs c) pre = true ->
  is_digits D = true -> is_digits F = true ->
  exists m,
    search (Metrics.millis (String c l))
      (pre ++ String c l ++ D ++ "." ++ F ++ "ms" ++ post) = Some m /\
    Metrics.__extract_decimal m
    = Ok (Decimal.mk false (digits_value 0 (D ++ F))
            (- Z.of_nat (String.length F))).
Proof.
  intros Hp HD HF.
  assert (S : search (Metrics.millis (String c l))
                (pre ++ String c l ++ D ++ "." ++ F ++ "ms" ++ post)
              = Some (mkMatch (String.length pre)
                        (String c l ++ D ++ "." ++ F ++ "ms")
                        [(2, F); (1, D)])).
  { unfold search. rewrite millis_skip by assumption.
    apply search_from_here. unfold match_at.
    rewrite millis_exec_fraction by assumption.
    replace (String c l ++ D ++ "." ++ F ++ "ms" ++ post)
      with ((String c l ++ D ++ "." ++ F ++ "ms") ++ post)
      by (now rewrite !app_assoc_s).
    now rewrite consumed_app. }
  eexists. split; [exact S|].
  unfold Metrics.__extract_decimal, group. cbn [m_groups lookup Nat.eqb].
  rewrite is_digits_truthy by assumption. cbn [fmt].
  apply of_string_digits; auto. now apply is_digits_elim in HF.
Qed.

Lemma millis_token_whole c l pre D post :
  Str.all (differs c) pre = true -> is_digits D = true ->
  exists m,
    search (Metrics.millis (String c l))
      (pre ++ String c l ++ D ++ "ms" ++ post) = Some m /\
    Metrics.__extract_decimal m
    = Ok (Decimal.mk false (digits_value 0 D * 10) (-1)).
Proof.
  intros Hp HD.
  assert (S : search (Metrics.millis (String c l))
                (pre ++ String c l ++ D ++ "ms" ++ post)
              = Some (mkMatch (String.length pre) (String c l ++ D ++ "ms")
                        [(1, D)])).
  { unfold search. rewrite millis_skip by assumption.
    apply search_from_here. unfold match_at.
    rewrite millis_exec_whole by assumption.
    replace (String c l ++ D ++ "ms" ++ post)
      with ((String c l ++ D ++ "ms") ++ post)
      by (now rewrite !app_assoc_s).
    now rewrite consumed_app. }
  eexists. split; [exact S|].
  unfold Metrics.__extract_decimal, group.
  cbn [m_groups lookup Nat.eqb truthy_str fmt].
  rewrite (of_string_digits D "0") by auto.
  now rewrite digits_value_zero.
Qed.

(** ** The Model extractor *)

Lemma search_Empty s : search Empty s = Some (mkMatch 0 "" []).
Proof.
  unfold search. apply search_from_here. unfold match_at. simpl.
  now rewrite consumed_same.
Qed.

(** C10: if the list of entity names of the Model extractor is empty
    after the exclusion filter, the compiled alternation is the empty
    pattern, which matches every string (at its start, with the empty
    text); so every line tagged DEBUG that carries a process-ID token
    yields a Record whose class_name is the empty string. *)
Theorem empty_model_list_matches_all (table_names : list string)
    (line : string) (p : Match) :
  filter (fun el => negb (Model.mem el Model.EXCLUDE_CLASS_NAMES))
    (map Model.escape table_names) = [] ->
  Str.contains "DEBUG" line = true ->
  search PID_PATTERN line = Some p ->
  Model.__modelname_into_regexp table_names = Empty /\
  (forall s, search (Model.__modelname_into_regexp table_names) s
             = Some (mkMatch 0 "" [])) /\
  _init_entity (X := Model_LogFile table_names) line
  = Ok (Some (Model.mkData (group p 1) (Some ""))).
Proof.
  intros Hf Hd Hp.
  assert (E : Model.__modelname_into_regexp table_names = Empty).
  { unfold Model.__modelname_into_regexp. rewrite Hf. reflexivity. }
  split; [exact E|]. split.
  - intros s. rewrite E. apply search_Empty.
  - unfold _init_entity. rewrite Hp.
    cbn [extract_additional_data set_pid Model_LogFile].
    unfold Model.extract_additional_data. rewrite Hd, E, search_Empty.
    reflexivity.
Qed.

Lemma empty_model_list_matches_all_witness :
  Model.__modelname_into_regexp ["ArInternalMetadata"; "SchemaMigration"]
  = Empty /\
  (forall s,
     search (Model.__modelname_into_regexp
               ["ArInternalMetadata"; "SchemaMigration"]) s
     = Some (mkMatch 0 "" [])) /\
  _init_entity
    (X := Model_LogFile ["ArInternalMetadata"; "SchemaMigration"])
    "DEBUG [x #1] User Load"
  = Ok (Some (Model.mkData
                (group (mkMatch 6 "[x #1]" [(1, "#1")]) 1) (Some ""))).
Proof.
  apply (empty_model_list_matches_all
           ["ArInternalMetadata"; "SchemaMigration"]
           "DEBUG [x #1] User Load" (mkMatch 6 "[x #1]" [(1, "#1")]));
    vm_compute; reflexivity.
Defined.

(** With a name left in the list, the pattern is that name and a line
    without it gives no record. *)
Example model_with_a_name :
  _init_entity (X := Model_LogFile ["User"; "SchemaMigration"])
    "DEBUG [x #1] User Load"
  = Ok (Some (Model.mkData (Some "#1") (Some "User")))
  /\ _init_entity (X := Model_LogFile ["User"; "SchemaMigration"])
       "DEBUG [x #1] Post Load"
     = Ok None.
Proof. split; vm_compute; reflexivity. Qed.

(** ** The extraction engine *)

Section Engine.

Context {E : Type} {X : LogFile E}.
Variable fs : filesystem.
Variable here : string.
Variable csv_header : string.
Variable csv_row : list E -> E -> string.

Hypothesis total : no_raise X.

Lemma init_entity_total line : _init_entity line = Ok (entity_of line).
Proof.
  unfold entity_of. destruct (_init_entity line) eqn:H; [reflexivity|].
  exfalso. unfold _init_entity in H.
  destruct (search PID_PATTERN line); [|discriminate].
  destruct (total line) as [r Hr]. rewrite Hr in H. simpl in H.
  destruct r; discriminate.
Qed.

Lemma convert_line_eq line d :
  convert_line line d = (Ok tt, (d ++ entities [line])%list, []).
Proof.
  unfold convert_line, seq, lift. rewrite init_entity_total.
  unfold entities. simpl. destruct (entity_of line); simpl.
  - reflexivity.
  - now rewrite app_nil_r.
Qed.

Lemma entities_app l1 l2 :
  entities (l1 ++ l2) = (entities l1 ++ entities l2)%list.
Proof. unfold entities. apply flat_map_app. Qed.

Lemma for_each_lines lines : forall d,
  for_each lines convert_line d = (Ok tt, (d ++ entities lines)%list, []).
Proof.
  induction lines as [|l lines IH]; intros d.
  - simpl. unfold ret. now rewrite app_nil_r.
  - cbn [for_each]. unfold seq. rewrite convert_line_eq, IH.
    rewrite <- app_assoc, <- entities_app. reflexivity.
Qed.

(** One file that opens: its records are appended, and the warning is
    logged exactly when [data_list] is empty afterwards. *)
Lemma convert_opened filename lines d :
  open_ fs filename = Ok lines ->
  __convert_log_into_array fs filename d
  = (Ok tt, (d ++ entities lines)%list,
     Log (Logging.mk Logging.INFO
            ("Starting to process log file: " ++ filename))
     :: match (d ++ entities lines)%list with
        | [] => [Log (Logging.mk Logging.WARNING
                        ("No data extracted from log file: " ++ filename))]
        | _ :: _ => []
        end).
Proof.
  intros Ho. unfold __convert_log_into_array, try_except_OSError.
  unfold seq at 1. unfold logger_info, emit.
  unfold seq at 1. unfold lift. rewrite Ho.
  unfold seq at 1. rewrite for_each_lines.
  unfold seq, get_data_list.
  destruct (d ++ entities lines)%list; reflexivity.
Qed.

(** One file that does not open: the fault is logged and raised again. *)
Lemma convert_unopened filename what d :
  open_ fs filename = Raise (OSError what) ->
  __convert_log_into_array fs filename d
  = (Raise (OSError what), d,
     [Log (Logging.mk Logging.INFO
             ("Starting to process log file: " ++ filename));
      Log (Logging.mk Logging.ERROR
             ("Error opening file " ++ filename ++ ": " ++ what))]).
Proof.
  intros Ho. unfold __convert_log_into_array, try_except_OSError.
  unfold seq at 1. unfold logger_info, emit.
  unfold seq at 1. unfold lift. rewrite Ho.
  reflexivity.
Qed.

(** Once records have been accumulated, a file that yields none is read
    without a warning. *)
Lemma no_warning_once_records_exist filename lines d :
  open_ fs filename = Ok lines -> d <> [] -> entities lines = [] ->
  __convert_log_into_array fs filename d
  = (Ok tt, d,
     [Log (Logging.mk Logging.INFO
             ("Starting to process log file: " ++ filename))]).
Proof.
  intros Ho Hd He. rewrite (convert_opened _ _ _ Ho), He, app_nil_r.
  destruct d; [contradiction | reflexivity].
Qed.

Lemma written_app t1 t2 : written (t1 ++ t2) = (written t1 ++ written t2)%list.
Proof.
  induction t1 as [|e t1 IH]; simpl; [reflexivity|].
  destruct e; simpl; now rewrite IH.
Qed.

Lemma logged_app t1 t2 : logged (t1 ++ t2) = (logged t1 ++ logged t2)%list.
Proof.
  induction t1 as [|e t1 IH]; simpl; [reflexivity|].
  destruct e; simpl; now rewrite IH.
Qed.


End Engine.

Lemma for_each_raise {E : Type} {A : Type} (body : A -> M (E := E) unit)
    (l1 : list A) (a : A) (l2 : list A) (e : exn) : forall d d1 t1 d2 t2,
  for_each l1 body d = (Ok tt, d1, t1) ->
  body a d1 = (Raise e, d2, t2) ->
  for_each (l1 ++ a :: l2) body d = (Raise e, d2, (t1 ++ t2)%list).
Proof.
  induction l1 as [|b l1 IH]; intros d d1 t1 d2 t2 H1 Ha.
  - simpl in H1. unfold ret in H1. inversion H1; subst.
    simpl. unfold seq. now rewrite Ha.
  - cbn [for_each app] in *. unfold seq in *.
    destruct (body b d) as [[[[]|e'] db] tb]; [|discriminate].
    destruct (for_each l1 body db) as [[o1 d1'] t1'] eqn:Hl.
    inversion H1; subst.
    rewrite (IH db d1 t1' d2 t2 Hl Ha). now rewrite app_assoc.
Qed.

(** The three extractors of the program raise on no line. *)
Lemma Controller_total : no_raise Controller_LogFile.
Proof.
  intros line. cbn [extract_additional_data Controller_LogFile].
  unfold Controller.extract_additional_data.
  destruct (search Controller.PATTERN line); eauto.
Qed.

Lemma Model_total table_names : no_raise (Model_LogFile table_names).
Proof.
  intros line. cbn [extract_additional_data Model_LogFile].
  unfold Model.extract_additional_data.
  destruct (negb (Str.contains "DEBUG" line)); eauto.
  destruct (search _ line); eauto.
Qed.

(** ** The export operation *)

(** C5, the code at the failing input: the second selected file yields
    no Record, the records logged during the export call are the three
    INFO records below, and no warning is logged for that file, because
    the first file has already contributed a Record. *)
Theorem empty_file_after_records_no_warning :
  entities (X := Controller_LogFile)
    (lines_of Example.two_files Example.here "production.log.000002") = [] /\
  exists d t,
    Example.export Example.two_files __init__ = (Ok tt, d, t) /\
    logged t
    = [Logging.mk Logging.INFO
         "Starting to process log file: /app/extractor/../logs/production.log.000001";
       Logging.mk Logging.INFO
         "Starting to process log file: /app/extractor/../logs/production.log.000002";
       Logging.mk Logging.INFO
         "Data exported to /app/extractor/../tmp/out/controller.tsv"] /\
    ~ List.In
        (Logging.mk Logging.WARNING
           "No data extracted from log file: /app/extractor/../logs/production.log.000002")
        (logged t).
Proof.
  split; [vm_compute; reflexivity|].
  eexists. eexists. split; [vm_compute; reflexivity|].
  split; [reflexivity|].
  simpl. intros [H|[H|[H|[]]]]; discriminate H.
Qed.

(** With the same files listed in the other order the warning is logged:
    nothing had been accumulated when the empty file was read. *)
Example empty_file_first_warning :
  exists d t,
    Example.export Example.two_files_swapped __init__ = (Ok tt, d, t) /\
    List.In
      (Logging.mk Logging.WARNING
         "No data extracted from log file: /app/extractor/../logs/production.log.000002")
      (logged t).
Proof.
  eexists. eexists. split; [vm_compute; reflexivity|].
  simpl. right. left. reflexivity.
Qed.

(** C6: when the logs directory does not exist, the export operation
    logs the condition at level ERROR and returns normally: it raises
    nothing, makes no directory, writes no file and leaves [data_list]
    as it was. *)
Theorem missing_logs_dir_is_not_fatal {E : Type} {X : LogFile E}
    (fs : filesystem) (here csv_header : string)
    (csv_row : list E -> E -> string) (out : output) (pat : regex) (folder : string)
    (d : list E) :
  exists_ fs (logs_dir here) = false ->
  exists t,
    export_tsv fs here csv_header csv_row out pat folder d = (Ok tt, d, t) /\
    t = [Log (Logging.mk Logging.ERROR
                ("Log directory not found: " ++ logs_dir here))] /\
    written t = [].
Proof.
  intros H. eexists. unfold export_tsv. rewrite H. cbn [negb].
  unfold logger_error, emit. split; [reflexivity|]. split; reflexivity.
Qed.

Lemma missing_logs_dir_is_not_fatal_witness :
  exists t,
    Example.export Example.nothing __init__ = (Ok tt, __init__, t) /\
    t = [Log (Logging.mk Logging.ERROR
                ("Log directory not found: " ++ logs_dir Example.here))] /\
    written t = [].
Proof.
  apply (missing_logs_dir_is_not_fatal (X := Controller_LogFile)
           Example.nothing Example.here Example.csv_header Example.csv_row
           Example.disk (log_name_pattern "production") "out" __init__).
  reflexivity.
Defined.



(** ** The file-name filter of the tasks *)

Lemma app_empty_r_s (a : string) : a ++ "" = a.
Proof. induction a as [|ch a IH]; simpl; [reflexivity | now rewrite IH]. Qed.

Lemma log_name_matches_shape env x g :
  matches (log_name_pattern env) x [] g ->
  exists c1 c2 ds,
    x = rotated_name env c1 c2 ds "" /\ dot c1 = true /\ dot c2 = true /\
    Str.all digit ds = true /\ String.length ds = 6.
Proof.
  unfold log_name_pattern. intros M.
  inversion M as [| | |r1 r2 x1 x2 g0 g1 g2 M1 M2| | | | | |];
    subst; clear M.
  apply matches_lit in M1. destruct M1 as [-> ->].
  inversion M2 as [| | |r1 r2 x1 x3 g0 g1 g3 M3 M4| | | | | |];
    subst; clear M2.
  inversion M4 as [| | |r1 r2 x4 x5 g0 g4 g5 M5 M6| | | | | |];
    subst; clear M4.
  apply (matches_lit "log") in M5. destruct M5 as [-> ->].
  inv_matches.
  match goal with
  | |- context [String ?a "" ++ "log" ++ String ?b "" ++ ?d] =>
      exists a, b, d
  end.
  unfold rotated_name.
  match goal with H : within (Some 6) _ |- _ => simpl in H end.
  repeat split; auto; try lia.
  simpl. now rewrite app_empty_r_s.
Qed.

Lemma rotated_name_app env c1 c2 ds rest :
  rotated_name env c1 c2 ds "" ++ rest = rotated_name env c1 c2 ds rest.
Proof.
  unfold rotated_name. rewrite app_assoc_s. simpl. rewrite app_assoc_s.
  reflexivity.
Qed.

Lemma rotated_name_matches env c1 c2 ds :
  dot c1 = true -> dot c2 = true -> Str.all digit ds = true ->
  String.length ds = 6 ->
  matches (log_name_pattern env) (rotated_name env c1 c2 ds "") [] [].
Proof.
  intros H1 H2 Hd Hl. unfold log_name_pattern, rotated_name.
  apply M_Cat with (g1 := []).
  - clear. induction env as [|c env IH]; simpl.
    + constructor.
    + change (String c env) with (String c "" ++ env).
      econstructor; [constructor | exact IH].
  - change (String c1 ("log" ++ String c2 (ds ++ "")))
      with (String c1 "" ++ "log" ++ String c2 "" ++ ds ++ "").
    rewrite app_empty_r_s.
    apply M_Cat with (g1 := []); [now constructor|].
    apply M_Cat with (g1 := []).
    + simpl. change "log" with (String "l" "" ++ String "o" "" ++ String "g" "" ++ "").
      repeat (eapply M_Cat; [apply M_Lit|]). apply M_Empty.
    + apply M_Cat with (g1 := []); [now constructor|].
      apply M_Rep; [assumption | lia | simpl; lia].
Qed.

(** X1: the name filter of the export task, for an environment name
    without special characters, keeps exactly the names that start with
    the environment name, one character, [log], one character and six
    digits: what follows the digits is free, and so are the two
    characters written as points (only a line feed is refused). *)
Theorem log_name_filter_iff (env name : string) :
  plain env = true ->
  (re_match (log_name_pattern env) name <> None <->
   exists c1 c2 ds rest,
     name = rotated_name env c1 c2 ds rest /\ dot c1 = true /\
     dot c2 = true /\ Str.all digit ds = true /\ String.length ds = 6).
Proof.
  intros _. unfold re_match. split.
  - destruct (match_at (log_name_pattern env) 0 name) as [m|] eqn:H;
      [|contradiction].
    intros _. apply match_at_sound in H.
    destruct H as (x & rest & -> & _ & _ & M).
    apply log_name_matches_shape in M.
    destruct M as (c1 & c2 & ds & -> & H1 & H2 & Hd & Hl).
    exists c1, c2, ds, rest. rewrite rotated_name_app. auto.
  - intros (c1 & c2 & ds & rest & -> & H1 & H2 & Hd & Hl).
    rewrite <- rotated_name_app. unfold match_at.
    pose proof (exec_complete _ _ _ _
                  (rotated_name_matches env c1 c2 ds H1 H2 Hd Hl)
                  rest accept) as C.
    destruct (exec (log_name_pattern env)
                (rotated_name env c1 c2 ds "" ++ rest) [] accept)
      as [[s' g]|]; [discriminate|].
    exfalso. apply C; [discriminate | reflexivity].
Qed.

Lemma log_name_filter_iff_witness :
  re_match (log_name_pattern "production") "productionXlog-000001.gz"
  <> None <->
  exists c1 c2 ds rest,
    "productionXlog-000001.gz" = rotated_name "production" c1 c2 ds rest /\
    dot c1 = true /\ dot c2 = true /\ Str.all digit ds = true /\
    String.length ds = 6.
Proof.
  apply (log_name_filter_iff "production" "productionXlog-000001.gz").
  reflexivity.
Defined.

Example log_names :
  re_match (log_name_pattern "production") "production.log.000001" <> None /\
  re_match (log_name_pattern "production") "production.log.0000017" <> None /\
  re_match (log_name_pattern "production") "productionXlog-000001.gz"
  <> None /\
  re_match (log_name_pattern "production") "production.log.12345" = None /\
  re_match (log_name_pattern "production") "old.production.log.000001"
  = None.
Proof. repeat split; try discriminate; reflexivity. Qed.

(** ** What an export call does to [data_list] and to the file system *)

Section Frame.

Context {E : Type} {X : LogFile E}.

Lemma appends_ret {A} P (a : A) : appends (E := E) P (ret a).
Proof. intros d. exists []. simpl. now rewrite app_nil_r. Qed.

Lemma appends_lift {A} P (o : outcome A) : appends (E := E) P (lift o).
Proof. intros d. exists []. simpl. now rewrite app_nil_r. Qed.

Lemma appends_raise {A} P e : appends (E := E) (A := A) P (raise e).
Proof. intros d. exists []. simpl. now rewrite app_nil_r. Qed.

Lemma appends_emit P lv msg : appends (E := E) P (emit lv msg).
Proof. intros d. exists []. simpl. now rewrite app_nil_r. Qed.

Lemma appends_seq {A B} P (m : M A) (f : A -> M B) :
  appends (E := E) P m -> (forall a, appends P (f a)) -> appends P (seq m f).
Proof.
  intros Hm Hf d. unfold seq. destruct (Hm d) as (s1 & E1 & P1).
  destruct (m d) as [[[a|e] d1] t1]; simpl in E1; subst d1.
  - destruct (Hf a (d ++ s1)%list) as (s2 & E2 & P2).
    destruct (f a (d ++ s1)%list) as [[o d2] t2]. simpl in *. subst d2.
    exists (s1 ++ s2)%list. rewrite app_assoc. split; auto.
    apply Forall_app. auto.
  - exists s1. auto.
Qed.

Lemma appends_try {A} P (body : M A) (handler : exn -> M A) :
  appends (E := E) P body -> (forall e, appends P (handler e)) ->
  appends P (try_except_OSError body handler).
Proof.
  intros Hb Hh d. unfold try_except_OSError.
  destruct (Hb d) as (s1 & E1 & P1).
  destruct (body d) as [[[a|e] d1] t1]; simpl in E1; subst d1.
  - exists s1. auto.
  - destruct e; try (exists s1; now auto).
    destruct (Hh (OSError what) (d ++ s1)%list) as (s2 & E2 & P2).
    destruct (handler (OSError what) (d ++ s1)%list) as [[o d2] t2].
    simpl in *. subst d2. exists (s1 ++ s2)%list. rewrite app_assoc.
    split; auto. apply Forall_app. auto.
Qed.

Lemma appends_for_each {A} P (l : list A) (body : A -> M unit) :
  (forall a, appends (E := E) P (body a)) -> appends P (for_each l body).
Proof.
  intros Hb. induction l as [|a l IH]; cbn [for_each].
  - apply appends_ret.
  - apply appends_seq; auto.
Qed.

Lemma only_logs_seq {A B} (m : M A) (f : A -> M B) :
  only_logs (E := E) m -> (forall a, only_logs (f a)) -> only_logs (seq m f).
Proof.
  intros Hm Hf d. unfold seq. specialize (Hm d).
  destruct (m d) as [[[a|e] d1] t1]; simpl in Hm.
  - specialize (Hf a d1). destruct (f a d1) as [[o d2] t2]. simpl in *.
    apply Forall_app. auto.
  - exact Hm.
Qed.

Lemma only_logs_try {A} (body : M A) (handler : exn -> M A) :
  only_logs (E := E) body -> (forall e, only_logs (handler e)) ->
  only_logs (try_except_OSError body handler).
Proof.
  intros Hb Hh d. unfold try_except_OSError. specialize (Hb d).
  destruct (body d) as [[[a|e] d1] t1]; simpl in Hb; [exact Hb|].
  destruct e; try exact Hb.
  specialize (Hh (OSError what) d1).
  destruct (handler (OSError what) d1) as [[o d2] t2]. simpl in *.
  apply Forall_app. auto.
Qed.

Lemma only_logs_for_each {A} (l : list A) (body : A -> M unit) :
  (forall a, only_logs (E := E) (body a)) -> only_logs (for_each l body).
Proof.
  intros Hb. induction l as [|a l IH]; cbn [for_each].
  - intros d. constructor.
  - apply only_logs_seq; auto.
Qed.

(** A record that [_init_entity] returns is a correlated one. *)
Lemma init_entity_correlated line r :
  _init_entity line = Ok (Some r) -> correlated r.
Proof.
  unfold _init_entity. intros H.
  destruct (search PID_PATTERN line) as [p|] eqn:Hp; [|discriminate].
  destruct (PID_search_groups _ _ Hp) as (b & w & ds & _ & _ & _ & Hd & Hg).
  destruct (extract_additional_data line) as [[a|]|e] eqn:He;
    cbn [Py.bind] in H; try discriminate.
  change (group p 1) with (lookup 1 (m_groups p)) in *.
  inversion H; subst. exists line, a, ds. rewrite Hg. auto.
Qed.

Lemma convert_line_appends line : appends correlated (convert_line line).
Proof.
  intros d. unfold convert_line, seq, lift.
  destruct (_init_entity line) as [[r|]|e] eqn:H; simpl.
  - exists [r]. split; auto. constructor; [|constructor].
    now apply init_entity_correlated in H.
  - exists []. now rewrite app_nil_r.
  - exists []. now rewrite app_nil_r.
Qed.

Lemma convert_line_only_logs line : only_logs (convert_line line).
Proof.
  intros d. unfold convert_line, seq, lift.
  destruct (_init_entity line) as [[r|]|e]; constructor.
Qed.

Variable fs : filesystem.

Lemma convert_file_appends filename :
  appends correlated (__convert_log_into_array fs filename).
Proof.
  unfold __convert_log_into_array. apply appends_try.
  - apply appends_seq; [apply appends_emit|]. intros _.
    apply appends_seq; [apply appends_lift|]. intros lines.
    apply appends_seq;
      [apply appends_for_each; intros; apply convert_line_appends|].
    intros _. apply appends_seq.
    + intros d. exists []. simpl. now rewrite app_nil_r.
    + intros [|e l]; [apply appends_emit | apply appends_ret].
  - intros e. apply appends_seq; [apply appends_emit|]. intros _.
    apply appends_raise.
Qed.

Lemma only_logs_emit lv msg : only_logs (E := E) (emit lv msg).
Proof. intros d. simpl. constructor; [exact I | constructor]. Qed.

Lemma convert_file_only_logs filename :
  only_logs (__convert_log_into_array fs filename).
Proof.
  unfold __convert_log_into_array. apply only_logs_try.
  - apply only_logs_seq; [apply only_logs_emit|]. intros _.
    apply only_logs_seq; [intros d; constructor|]. intros lines.
    apply only_logs_seq;
      [apply only_logs_for_each; intros; apply convert_line_only_logs|].
    intros _. apply only_logs_seq; [intros d; constructor|].
    intros [|e l]; [apply only_logs_emit | intros d; constructor].
  - intros e. apply only_logs_seq; [apply only_logs_emit|].
    intros _ d. constructor.
Qed.

Variable here : string.

Lemma loop_appends pat names :
  appends correlated (for_each names (convert_if_selected fs here pat)).
Proof.
  apply appends_for_each. intros n. unfold convert_if_selected.
  destruct (re_match pat n); [apply convert_file_appends | apply appends_ret].
Qed.

Lemma loop_only_logs pat names :
  only_logs (for_each names (convert_if_selected fs here pat)).
Proof.
  apply only_logs_for_each. intros n. unfold convert_if_selected.
  destruct (re_match pat n); [apply convert_file_only_logs|].
  intros d. constructor.
Qed.

End Frame.

Lemma logs_write_nothing t : Forall is_log t -> written t = [].
Proof.
  induction 1 as [|e t He _ IH]; [reflexivity|].
  destruct e; simpl in *; auto; contradiction.
Qed.

Lemma logs_create_nothing t : Forall is_log t -> created t = [].
Proof.
  induction 1 as [|e t He _ IH]; [reflexivity|].
  destruct e; simpl in *; auto; contradiction.
Qed.

Lemma created_app t1 t2 : created (t1 ++ t2) = (created t1 ++ created t2)%list.
Proof.
  induction t1 as [|e t1 IH]; simpl; [reflexivity|].
  destruct e; simpl; now rewrite IH.
Qed.

Lemma appends_makedirs {E : Type} (P : E -> Prop) (out : output)
    (dir : string) :
  appends P (makedirs (E := E) out dir).
Proof.
  intros d. exists []. unfold makedirs.
  destruct (makedirs_ out dir); simpl; now rewrite app_nil_r.
Qed.

Lemma appends_write_file {E : Type} (P : E -> Prop) (out : output)
    (path content : string) :
  appends P (write_file (E := E) out path content).
Proof.
  intros d. exists []. unfold write_file.
  destruct (open_w out path); [|simpl; now rewrite app_nil_r].
  destruct (to_csv_ out path content); simpl; now rewrite app_nil_r.
Qed.

(** X2: whatever the file system holds and whether the call returns or
    raises, an export call only appends to [data_list]: the records that
    were there stay at the front, in order, and every record appended is
    the extractor's fields for some line with the pid set to a hash
    followed by digits. *)
Theorem export_only_appends {E : Type} {X : LogFile E} (fs : filesystem)
    (here csv_header : string) (csv_row : list E -> E -> string)
    (out : output) (pat : regex) (folder : string) (d : list E) :
  exists s,
    snd (fst (export_tsv fs here csv_header csv_row out pat folder d))
    = (d ++ s)%list /\
    Forall correlated s.
Proof.
  revert d. change (appends correlated
                      (export_tsv fs here csv_header csv_row out pat folder)).
  unfold export_tsv. destruct (negb (exists_ fs (logs_dir here))).
  - apply appends_emit.
  - apply appends_seq; [apply appends_lift|]. intros names.
    apply appends_seq; [apply loop_appends|]. intros _.
    apply appends_seq; [apply appends_makedirs|].
    intros _.
    apply appends_seq; [intros d; exists []; simpl; now rewrite app_nil_r|].
    intros [|e l].
    + apply appends_emit.
    + apply appends_seq; [apply appends_write_file|].
      intros _. apply appends_emit.
Qed.

Lemma for_each_ext {E A : Type} (body1 body2 : A -> M (E := E) unit)
    (l : list A) :
  (forall a, List.In a l -> forall d, body1 a d = body2 a d) ->
  forall d, for_each l body1 d = for_each l body2 d.
Proof.
  induction l as [|a l IH]; intros H d.
  - reflexivity.
  - cbn [for_each]. unfold seq. rewrite (H a (or_introl eq_refl)).
    destruct (body2 a d) as [[[[]|e] d1] t1]; [|reflexivity].
    rewrite IH; [reflexivity|]. intros b Hb. apply H. now right.
Qed.

Lemma convert_file_ext {E : Type} {X : LogFile E} (fs1 fs2 : filesystem)
    (filename : string) (d : list E) :
  open_ fs1 filename = open_ fs2 filename ->
  __convert_log_into_array fs1 filename d
  = __convert_log_into_array fs2 filename d.
Proof.
  intros H. unfold __convert_log_into_array, try_except_OSError, seq, lift.
  now rewrite H.
Qed.

(** X4: an export call opens only the files the name filter selects: two
    file systems that agree on the logs directory, on its listing and on
    the selected files give the same outcome, the same [data_list] and
    the same events, whatever the other files are. *)
Theorem export_reads_only_selected {E : Type} {X : LogFile E}
    (fs1 fs2 : filesystem) (here csv_header : string)
    (csv_row : list E -> E -> string) (out : output) (pat : regex) (folder : string)
    (d : list E) :
  exists_ fs1 (logs_dir here) = exists_ fs2 (logs_dir here) ->
  listdir fs1 (logs_dir here) = listdir fs2 (logs_dir here) ->
  (forall names n,
     listdir fs1 (logs_dir here) = Ok names ->
     List.In n (selected pat names) ->
     open_ fs1 (logs_dir here ++ "/" ++ n)
     = open_ fs2 (logs_dir here ++ "/" ++ n)) ->
  export_tsv fs1 here csv_header csv_row out pat folder d
  = export_tsv fs2 here csv_header csv_row out pat folder d.
Proof.
  intros Hex Hls Hopen. unfold export_tsv. rewrite <- Hex, <- Hls.
  destruct (negb (exists_ fs1 (logs_dir here))); [reflexivity|].
  unfold seq at 1 3. unfold lift.
  destruct (listdir fs1 (logs_dir here)) as [names|e] eqn:Hn; [|reflexivity].
  unfold seq at 1 3.
  rewrite (for_each_ext (convert_if_selected fs1 here pat)
             (convert_if_selected fs2 here pat) names); [reflexivity|].
  intros n Hin d0. unfold convert_if_selected.
  destruct (re_match pat n) as [m|] eqn:Hm; [|reflexivity].
  apply convert_file_ext. apply (Hopen names n eq_refl).
  unfold selected. apply filter_In. split; [exact Hin|]. now rewrite Hm.
Qed.

Lemma export_reads_only_selected_witness :
  Example.export Installation.with_notes __init__
  = Example.export Installation.notes_denied __init__.
Proof.
  apply (export_reads_only_selected (X := Controller_LogFile)
           Installation.with_notes Installation.notes_denied Example.here
           Example.csv_header Example.csv_row Example.disk (log_name_pattern "production")
           "out" __init__).
  - reflexivity.
  - reflexivity.
  - intros names n H Hin. inversion H; subst names; clear H.
    destruct Hin as [<-|[<-|[]]]; reflexivity.
Defined.

(** ** The leftmost match, and the end of a greedy match *)

Lemma search_from_leftmost r s : forall pos m,
  search_from r pos s = Some m ->
  exists pre s0,
    s = pre ++ s0 /\ match_at r (pos + String.length pre) s0 = Some m /\
    (forall p1 p2, pre = p1 ++ p2 -> p2 <> "" ->
                   exec r (p2 ++ s0) [] accept = None).
Proof.
  induction s as [|c s IH]; intros pos m H; simpl in H.
  - destruct (match_at r pos "") eqn:Hm; [|discriminate].
    inversion H; subst. exists "", "". simpl. rewrite Nat.add_0_r.
    repeat split; auto. intros [|a p1] p2 Hp Hn; simpl in Hp;
      [congruence | discriminate].
  - destruct (match_at r pos (String c s)) eqn:Hm.
    + inversion H; subst. exists "", (String c s). simpl.
      rewrite Nat.add_0_r. repeat split; auto.
      intros [|a p1] p2 Hp Hn; simpl in Hp; [congruence | discriminate].
    + apply IH in H. destruct H as (pre & s0 & -> & Hat & Hleft).
      exists (String c pre), s0. simpl.
      replace (pos + S (String.length pre)) with (S pos + String.length pre)
        by lia.
      repeat split; auto.
      intros [|a p1] p2 Hp Hn; simpl in Hp.
      * subst p2. simpl. unfold match_at in Hm.
        destruct (exec r (String c (pre ++ s0)) [] accept) as [[s' g]|];
          [discriminate | reflexivity].
      * inversion Hp; subst. now apply (Hleft p1 p2).
Qed.

Lemma rep_greedy_accept_some cs s : forall g,
  rep_greedy cs 0 None s g accept <> None.
Proof.
  induction s as [|c s IH]; intros g; simpl; [discriminate|].
  destruct (cs c); simpl; [|discriminate].
  destruct (rep_greedy cs 0 None s g accept); discriminate.
Qed.

(** A greedy repetition at the end of a pattern takes the whole run. *)
Lemma rep_greedy_accept cs s : forall lo g s' g',
  rep_greedy cs lo None s g accept = Some (s', g') ->
  exists x, s = x ++ s' /\ Str.all cs x = true /\ lo <= String.length x /\
            stops cs s' /\ g' = g.
Proof.
  induction s as [|c s IH]; intros lo g s' g' H; simpl in H.
  - destruct (Nat.eqb_spec lo 0); [|discriminate]. subst.
    inversion H; subst. exists "". simpl. auto.
  - destruct (cs c) eqn:Hc; simpl in H.
    + destruct (rep_greedy cs (pred lo) None s g accept) as [[s1 g1]|] eqn:Hr.
      * inversion H; subst. apply IH in Hr.
        destruct Hr as (x & -> & Hx & Hlo & Hs & ->).
        exists (String c x). simpl. rewrite Hc, Hx. repeat split; auto. lia.
      * destruct (Nat.eqb_spec lo 0); [|discriminate]. subst.
        exfalso. exact (rep_greedy_accept_some cs s g Hr).
    + destruct (Nat.eqb_spec lo 0); [|discriminate]. subst.
      inversion H; subst. exists "". simpl. auto.
Qed.

(** ** The Controller extractor *)

Lemma controller_exec_shape s0 s' g :
  exec Controller.PATTERN s0 [] accept = Some (s', g) ->
  exists letters action,
    s0 = letters ++ "Controller#" ++ action ++ s' /\
    Str.all alpha letters = true /\ Str.all nonspace action = true /\
    1 <= String.length action /\ stops nonspace s'.
Proof.
  unfold Controller.PATTERN, star, plus. cbn [exec]. intros H.
  apply rep_greedy_sound in H.
  destruct H as (letters & s1 & -> & Hl & _ & _ & H).
  apply exec_sound in H. destruct H as (x & s2 & g2 & -> & M & H).
  apply (matches_lit "Controller") in M. destruct M as [-> ->].
  destruct s2 as [|c s3]; [discriminate|].
  destruct (Ascii.eqb_spec "#" c); [subst c | discriminate].
  apply rep_greedy_accept in H.
  destruct H as (action & -> & Ha & Hn & Hs & _).
  exists letters, action. repeat split; auto.
Qed.

Lemma controller_shape_matches letters action :
  Str.all alpha letters = true -> Str.all nonspace action = true ->
  1 <= String.length action ->
  matches Controller.PATTERN (letters ++ "Controller#" ++ action) [] [].
Proof.
  intros Hl Ha Hn. unfold Controller.PATTERN, star, plus.
  apply M_Cat with (g1 := []);
    [apply M_Rep; [assumption | lia | exact I]|].
  change ("Controller#" ++ action)
    with ("Controller" ++ String "#" "" ++ action).
  apply M_Cat with (g1 := []).
  - change "Controller"
      with (String "C" "" ++ String "o" "" ++ String "n" "" ++ String "t" ""
            ++ String "r" "" ++ String "o" "" ++ String "l" ""
            ++ String "l" "" ++ String "e" "" ++ String "r" "" ++ "").
    simpl lit. repeat (eapply M_Cat; [apply M_Lit|]). apply M_Empty.
  - apply M_Cat with (g1 := []); [apply M_Lit|].
    apply M_Rep; [assumption | assumption | exact I].
Qed.

(** X5: the controller name the Controller extractor returns is a whole
    token of the line: letters, then [Controller#], then an action of at
    least one character without white space.  It runs up to the next
    white space (or the end of the line), and no letter stands in front
    of it. *)
Theorem controller_name_is_whole_token (line : string)
    (r : Controller.DataStruct) :
  Controller.extract_additional_data line = Ok (Some r) ->
  exists pre letters action post,
    Controller.controller_name r = Some (letters ++ "Controller#" ++ action) /\
    line = pre ++ (letters ++ "Controller#" ++ action) ++ post /\
    Str.all alpha letters = true /\ Str.all nonspace action = true /\
    action <> "" /\ stops nonspace post /\
    (forall p c, pre = p ++ String c "" -> alpha c = false).
Proof.
  unfold Controller.extract_additional_data.
  destruct (search Controller.PATTERN line) as [m|] eqn:Hs; [|discriminate].
  intros H. inversion H; subst r; clear H. cbn [Controller.controller_name].
  apply search_from_leftmost in Hs.
  destruct Hs as (pre & s0 & -> & Hat & Hleft).
  unfold match_at in Hat.
  destruct (exec Controller.PATTERN s0 [] accept) as [[post g]|] eqn:Hx;
    [|discriminate].
  inversion Hat; subst m; clear Hat. cbn [group m_text].
  destruct (controller_exec_shape _ _ _ Hx)
    as (letters & action & -> & Hl & Ha & Hn & Hp).
  exists pre, letters, action, post.
  replace (letters ++ "Controller#" ++ action ++ post)
    with ((letters ++ "Controller#" ++ action) ++ post)
    by (rewrite !app_assoc_s; reflexivity).
  rewrite consumed_app. repeat split; auto.
  - intros ->. simpl in Hn. lia.
  - intros p c -> . destruct (alpha c) eqn:Hc; [|reflexivity]. exfalso.
    assert (N : exec Controller.PATTERN
                  (String c "" ++ letters ++ "Controller#" ++ action ++ post)
                  [] accept = None).
    { apply (Hleft p (String c "")); [reflexivity | discriminate]. }
    revert N.
    replace (String c "" ++ letters ++ "Controller#" ++ action ++ post)
      with ((String c letters ++ "Controller#" ++ action) ++ post)
      by (simpl; rewrite !app_assoc_s; reflexivity).
    apply (exec_complete Controller.PATTERN _ [] []).
    + apply controller_shape_matches; auto. simpl. now rewrite Hc, Hl.
    + discriminate.
Qed.

Lemma controller_name_is_whole_token_witness :
  exists pre letters action post,
    Controller.controller_name
      (Controller.mkData None (Some "UsersController#index"))
    = Some (letters ++ "Controller#" ++ action) /\
    "[App #42] Processing by UsersController#index as HTML"
    = pre ++ (letters ++ "Controller#" ++ action) ++ post /\
    Str.all alpha letters = true /\ Str.all nonspace action = true /\
    action <> "" /\ stops nonspace post /\
    (forall p c, pre = p ++ String c "" -> alpha c = false).
Proof.
  apply (controller_name_is_whole_token
           "[App #42] Processing by UsersController#index as HTML"
           (Controller.mkData None (Some "UsersController#index"))).
  vm_compute. reflexivity.
Defined.

(** ** The pattern of the Model extractor: escaping and compiling *)

Lemma startswith_drop n : forall s,
  Str.startswith n s = true -> s = n ++ drop (String.length n) s.
Proof.
  induction n as [|a n IH]; intros s H; simpl in *.
  - now destruct s.
  - destruct s as [|b s]; [discriminate|].
    apply andb_prop in H. destruct H as [Hab Hn].
    apply Ascii.eqb_eq in Hab. subst b. simpl. now rewrite <- IH.
Qed.

Lemma exec_lit_then n : forall r s g k,
  exec (lit_then n r) s g k
  = if Str.startswith n s then exec r (drop (String.length n) s) g k
    else None.
Proof.
  induction n as [|a n IH]; intros r s g k; simpl.
  - now destruct s.
  - destruct s as [|b s]; [reflexivity|].
    destruct (Ascii.eqb a b); simpl; [apply IH | reflexivity].
Qed.

Lemma branches_escape s : forall t,
  Model.branches (Model.escape s ++ t)
  = (lit_then s (fst (Model.branches t)), snd (Model.branches t)).
Proof.
  induction s as [|c s IH]; intros t.
  - simpl. now destruct (Model.branches t).
  - simpl Model.escape. destruct (Model.special c) eqn:Hc.
    + simpl. rewrite IH. reflexivity.
    + assert (N1 : Ascii.eqb c "\" = false).
      { destruct (Ascii.eqb_spec c "\"); [subst; discriminate | reflexivity]. }
      assert (N2 : Ascii.eqb c "|" = false).
      { destruct (Ascii.eqb_spec c "|"); [subst; discriminate | reflexivity]. }
      simpl. rewrite N1, N2, IH. reflexivity.
Qed.

Lemma compile_names n l :
  Model.compile (Str.join "|" (map Model.escape (n :: l)))
  = Model.alternation (lit_then n Empty)
      (map (fun x => lit_then x Empty) l).
Proof.
  unfold Model.compile.
  assert (B : forall l n,
    Model.branches (Str.join "|" (map Model.escape (n :: l)))
    = (lit_then n Empty, map (fun x => lit_then x Empty) l)).
  { clear. induction l as [|n2 l IH]; intros n.
    - simpl. rewrite <- (app_empty_r_s (Model.escape n)).
      rewrite branches_escape. reflexivity.
    - change (Str.join "|" (map Model.escape (n :: n2 :: l)))
        with (Model.escape n
              ++ "|" ++ Str.join "|" (map Model.escape (n2 :: l))).
      rewrite branches_escape.
      change ("|" ++ Str.join "|" (map Model.escape (n2 :: l)))
        with (String "|" (Str.join "|" (map Model.escape (n2 :: l)))).
      cbn [Model.branches]. change (Ascii.eqb "|" "\") with false.
      change (Ascii.eqb "|" "|") with true. cbv iota.
      rewrite IH. reflexivity. }
  now rewrite B.
Qed.

(** At a position, the compiled names match the first listed name the
    text starts with. *)
Lemma exec_names l : forall n s g,
  exec (Model.alternation (lit_then n Empty)
          (map (fun x => lit_then x Empty) l)) s g accept
  = match first_prefix (n :: l) s with
    | Some x => Some (drop (String.length x) s, g)
    | None => None
    end.
Proof.
  unfold first_prefix.
  induction l as [|n2 l IH]; intros n s g; cbn [map Model.alternation find].
  - rewrite exec_lit_then. now destruct (Str.startswith n s).
  - cbn [exec]. rewrite exec_lit_then.
    destruct (Str.startswith n s); [reflexivity|]. apply IH.
Qed.

Lemma escape_plain_eq e : forall s,
  plain e = true -> Model.escape s = e -> s = e.
Proof.
  induction e as [|a e IH]; intros s Hp Hs.
  - destruct s as [|c s]; [reflexivity|]. simpl in Hs.
    destruct (Model.special c); discriminate.
  - unfold plain in Hp. simpl in Hp. apply andb_prop in Hp.
    destruct Hp as [Ha He].
    destruct s as [|c s]; [discriminate|]. simpl in Hs.
    destruct (Model.special c) eqn:Hc.
    + inversion Hs; subst. discriminate.
    + inversion Hs; subst. f_equal. now apply IH.
Qed.

Lemma escape_plain s : plain s = true -> Model.escape s = s.
Proof.
  induction s as [|c s IH]; intros H; [reflexivity|].
  unfold plain in H. simpl in H. apply andb_prop in H. destruct H as [Hc Hs].
  simpl. destruct (Model.special c); [discriminate|]. now rewrite IH.
Qed.

Lemma eqb_escape s e :
  plain e = true -> String.eqb (Model.escape s) e = String.eqb s e.
Proof.
  intros He. destruct (String.eqb_spec s e) as [->|N].
  - rewrite escape_plain by assumption. apply String.eqb_refl.
  - apply String.eqb_neq. intros H. apply N. now apply escape_plain_eq.
Qed.

(** The exclusion, made on the escaped names, is the exclusion of the
    names themselves: the excluded names have no special character. *)
Lemma filter_escaped table_names :
  filter (fun el => negb (Model.mem el Model.EXCLUDE_CLASS_NAMES))
    (map Model.escape table_names)
  = map Model.escape (kept_names table_names).
Proof.
  unfold kept_names.
  induction table_names as [|n l IH]; [reflexivity|].
  cbn [map filter]. rewrite IH.
  assert (M : Model.mem (Model.escape n) Model.EXCLUDE_CLASS_NAMES
              = Model.mem n Model.EXCLUDE_CLASS_NAMES).
  { unfold Model.mem, Model.EXCLUDE_CLASS_NAMES. cbn [existsb].
    now rewrite !eqb_escape by reflexivity. }
  rewrite M. now destruct (Model.mem n Model.EXCLUDE_CLASS_NAMES).
Qed.

(** What the Model extractor finds: at the leftmost place where a kept
    name starts, the first such name of the list. *)
Lemma model_search_shape table_names line m :
  kept_names table_names <> [] ->
  search (Model.__modelname_into_regexp table_names) line = Some m ->
  exists pre post,
    line = pre ++ m_text m ++ post /\
    first_prefix (kept_names table_names) (m_text m ++ post)
    = Some (m_text m) /\
    (forall p1 p2, pre = p1 ++ p2 -> p2 <> "" ->
       first_prefix (kept_names table_names) (p2 ++ m_text m ++ post)
       = None).
Proof.
  intros Hk Hs. unfold Model.__modelname_into_regexp in Hs.
  rewrite filter_escaped in Hs.
  destruct (kept_names table_names) as [|n l] eqn:Hkept; [contradiction|].
  rewrite compile_names in Hs.
  apply search_from_leftmost in Hs.
  destruct Hs as (pre & s0 & -> & Hat & Hleft).
  unfold match_at in Hat. rewrite exec_names in Hat.
  destruct (first_prefix (n :: l) s0) as [x|] eqn:Hf; [|discriminate].
  inversion Hat; subst m; clear Hat. cbn [m_text].
  assert (Hx : Str.startswith x s0 = true).
  { unfold first_prefix in Hf. now apply find_some in Hf. }
  apply startswith_drop in Hx.
  set (post := drop (String.length x) s0) in *.
  rewrite Hx. rewrite consumed_app.
  exists pre, post. repeat split; auto.
  - now rewrite <- Hx.
  - intros p1 p2 Hp Hn. specialize (Hleft p1 p2 Hp Hn).
    rewrite exec_names in Hleft. rewrite <- Hx.
    now destruct (first_prefix (n :: l) (p2 ++ s0)).
Qed.

(** X6: with at least one table name kept, the class name the Model
    extractor returns for a line is found at the leftmost place of the
    line where a kept name starts, and among the kept names that start
    there it is the first of the list: a name listed before a longer name
    that begins with it hides the longer one. *)
Theorem model_class_name_leftmost_first (table_names : list string)
    (line : string) (r : Model.DataStruct) :
  kept_names table_names <> [] ->
  Model.extract_additional_data
    (Model.__modelname_into_regexp table_names) line = Ok (Some r) ->
  exists pre name post,
    Model.class_name r = Some name /\ line = pre ++ name ++ post /\
    first_prefix (kept_names table_names) (name ++ post) = Some name /\
    (forall p1 p2, pre = p1 ++ p2 -> p2 <> "" ->
       first_prefix (kept_names table_names) (p2 ++ name ++ post) = None).
Proof.
  intros Hk H. unfold Model.extract_additional_data in H.
  destruct (negb (Str.contains "DEBUG" line)); [discriminate|].
  destruct (search (Model.__modelname_into_regexp table_names) line)
    as [m|] eqn:Hs; [|discriminate].
  inversion H; subst r; clear H. cbn [Model.class_name group].
  destruct (model_search_shape _ _ _ Hk Hs) as (pre & post & Hl & Hf & Hleft).
  exists pre, (m_text m), post. auto.
Qed.

Lemma model_class_name_leftmost_first_witness :
  exists pre name post,
    Model.class_name (Model.mkData None (Some "User")) = Some name /\
    "DEBUG [x #1] UserProfile Load" = pre ++ name ++ post /\
    first_prefix (kept_names ["User"; "UserProfile"; "SchemaMigration"])
      (name ++ post) = Some name /\
    (forall p1 p2, pre = p1 ++ p2 -> p2 <> "" ->
       first_prefix (kept_names ["User"; "UserProfile"; "SchemaMigration"])
         (p2 ++ name ++ post) = None).
Proof.
  apply (model_class_name_leftmost_first
           ["User"; "UserProfile"; "SchemaMigration"]
           "DEBUG [x #1] UserProfile Load"
           (Model.mkData None (Some "User"))).
  - discriminate.
  - vm_compute. reflexivity.
Defined.

Lemma kept_not_excluded table_names name :
  List.In name (kept_names table_names) ->
  List.In name table_names /\
  Model.mem name Model.EXCLUDE_CLASS_NAMES = false.
Proof.
  unfold kept_names. intros H. apply filter_In in H. destruct H as [Hin Hm].
  split; [exact Hin|]. now destruct (Model.mem name _).
Qed.

(** X7: the class name the Model extractor returns is never one of the
    excluded names: it is one of the table names that are not excluded,
    also when names hold characters that are special in a pattern, or
    the empty text when no name is kept. *)
Theorem model_class_name_is_kept (table_names : list string)
    (line : string) (r : Model.DataStruct) :
  Model.extract_additional_data
    (Model.__modelname_into_regexp table_names) line = Ok (Some r) ->
  exists name,
    Model.class_name r = Some name /\
    Model.mem name Model.EXCLUDE_CLASS_NAMES = false /\
    ((kept_names table_names = [] /\ name = "") \/
     (List.In name table_names /\ List.In name (kept_names table_names))).
Proof.
  intros H. destruct (kept_names table_names) as [|n l] eqn:Hk.
  - unfold Model.extract_additional_data, Model.__modelname_into_regexp in H.
    rewrite filter_escaped, Hk in H. cbn [map Str.join] in H.
    change (Model.compile "") with Empty in H. rewrite search_Empty in H.
    destruct (negb (Str.contains "DEBUG" line)); [discriminate|].
    inversion H; subst r. exists "". cbn. auto.
  - assert (Hne : kept_names table_names <> []) by (rewrite Hk; discriminate).
    unfold Model.extract_additional_data in H.
    destruct (negb (Str.contains "DEBUG" line)); [discriminate|].
    destruct (search (Model.__modelname_into_regexp table_names) line)
      as [m|] eqn:Hs; [|discriminate].
    inversion H; subst r; clear H. cbn [Model.class_name group].
    destruct (model_search_shape _ _ _ Hne Hs) as (pre & post & _ & Hf & _).
    unfold first_prefix in Hf. apply find_some in Hf. destruct Hf as [Hin _].
    destruct (kept_not_excluded _ _ Hin) as [Ht Hm].
    exists (m_text m). rewrite <- Hk. auto.
Qed.

Lemma model_class_name_is_kept_witness :
  exists name,
    Model.class_name (Model.mkData None (Some "A|b.c")) = Some name /\
    Model.mem name Model.EXCLUDE_CLASS_NAMES = false /\
    ((kept_names ["SchemaMigration"; "A|b.c"] = [] /\ name = "") \/
     (List.In name ["SchemaMigration"; "A|b.c"] /\
      List.In name (kept_names ["SchemaMigration"; "A|b.c"]))).
Proof.
  apply (model_class_name_is_kept ["SchemaMigration"; "A|b.c"]
           "DEBUG [x #1] SchemaMigration A|b.c Axb.c"
           (Model.mkData None (Some "A|b.c"))).
  vm_compute. reflexivity.
Defined.

(** ** The export task *)

Lemma engine_events_app l1 l2 :
  Tasks.engine_events (l1 ++ l2)
  = (Tasks.engine_events l1 ++ Tasks.engine_events l2)%list.
Proof.
  induction l1 as [|e l1 IH]; simpl; [reflexivity|].
  destruct e; simpl; now rewrite IH.
Qed.

Lemma printed_app l1 l2 :
  Tasks.printed (l1 ++ l2) = (Tasks.printed l1 ++ Tasks.printed l2)%list.
Proof.
  induction l1 as [|e l1 IH]; simpl; [reflexivity|].
  destruct e; simpl; now rewrite IH.
Qed.

Lemma engine_events_map t : Tasks.engine_events (map Tasks.Engine t) = t.
Proof. induction t as [|e t IH]; simpl; [reflexivity | now rewrite IH]. Qed.

Lemma printed_map t : Tasks.printed (map Tasks.Engine t) = [].
Proof. induction t as [|e t IH]; simpl; auto. Qed.

(** ** Lines and records *)

(** X10: a line gives a record exactly when it holds a process-ID token
    (a bracket, characters other than a line feed, one white space, a
    hash, digits, the closing bracket) and the extractor returns fields
    for it; the extractor is not asked when the token is missing. *)
Theorem record_iff_token_and_fields {E : Type} {X : LogFile E}
    (line : string) :
  (exists r, _init_entity line = Ok (Some r)) <->
  (exists pre body ws ds post,
     line = pre ++ pid_token body ws ds ++ post /\
     Str.all dot body = true /\ space ws = true /\ is_digits ds = true) /\
  (exists a, extract_additional_data line = Ok (Some a)).
Proof.
  unfold _init_entity. split.
  - intros [r H].
    destruct (search PID_PATTERN line) as [p|] eqn:Hp; [|discriminate].
    split.
    + apply PID_search_some_iff. rewrite Hp. discriminate.
    + destruct (extract_additional_data line) as [[a|]|e];
        cbn [Py.bind] in H; try discriminate. eauto.
  - intros [Ht [a Ha]]. apply PID_search_some_iff in Ht.
    destruct (search PID_PATTERN line) as [p|]; [|contradiction].
    rewrite Ha. cbn [Py.bind]. eauto.
Qed.

(** ** Files whose lines the extractor reads without raising *)

Section Lines.

Context {E : Type} {X : LogFile E}.
Variable fs : filesystem.
Variable here : string.

Lemma init_entity_safe line :
  (exists r, extract_additional_data line = Ok r) ->
  _init_entity line = Ok (entity_of line).
Proof.
  intros [r Hr]. unfold entity_of, _init_entity.
  destruct (search PID_PATTERN line); [|reflexivity].
  rewrite Hr. cbn [Py.bind]. now destruct r.
Qed.

Lemma for_each_lines_safe lines :
  safe_lines lines ->
  forall d,
    for_each lines convert_line d = (Ok tt, (d ++ entities lines)%list, []).
Proof.
  induction 1 as [|l lines Hl Hrest IH]; intros d.
  - simpl. unfold ret. now rewrite app_nil_r.
  - cbn [for_each]. unfold seq, convert_line at 1, seq, lift.
    rewrite (init_entity_safe l Hl).
    change (entities (l :: lines))
      with (match entity_of l with Some e => [e] | None => [] end
            ++ entities lines)%list.
    destruct (entity_of l) as [e|]; simpl.
    + rewrite IH. now rewrite <- app_assoc.
    + now rewrite IH.
Qed.

Lemma convert_opened_safe filename lines d :
  open_ fs filename = Ok lines -> safe_lines lines ->
  exists t,
    __convert_log_into_array fs filename d
    = (Ok tt, (d ++ entities lines)%list, t).
Proof.
  intros Ho Hs. unfold __convert_log_into_array, try_except_OSError.
  unfold seq at 1. unfold logger_info, emit.
  unfold seq at 1. unfold lift. rewrite Ho.
  unfold seq at 1. rewrite (for_each_lines_safe lines Hs).
  unfold seq, get_data_list.
  destruct (d ++ entities lines)%list; eexists; reflexivity.
Qed.

(** The loop over the listing, when every selected file opens and the
    extractor raises on none of its lines. *)
Lemma loop_readable pat names : forall d,
  readable X fs here pat names ->
  exists t,
    for_each names (convert_if_selected fs here pat) d
    = (Ok tt, (d ++ selected_records fs here pat names)%list, t) /\
    Forall is_log t.
Proof.
  intros d Hr.
  assert (L : exists t,
    for_each names (convert_if_selected fs here pat) d
    = (Ok tt, (d ++ selected_records fs here pat names)%list, t)).
  { revert d. unfold readable, selected_records, selected in *.
    induction names as [|n names IH]; intros d.
    - exists []. simpl. unfold ret. now rewrite app_nil_r.
    - cbn [for_each]. unfold seq. unfold convert_if_selected at 1.
      cbn [filter] in *.
      destruct (re_match pat n) as [m|] eqn:Hm; cbn [truthy] in *.
      + destruct (Hr n (or_introl eq_refl)) as (lines & Hl & Hs).
        destruct (convert_opened_safe _ _ d Hl Hs) as [t1 Ht1].
        rewrite Ht1.
        destruct (IH (fun n' Hn' => Hr n' (or_intror Hn'))
                    (d ++ entities lines)%list) as [t Ht].
        rewrite Ht. eexists. cbn [flat_map]. unfold lines_of at 2.
        rewrite Hl. now rewrite <- app_assoc.
      + unfold ret. destruct (IH Hr d) as [t Ht]. rewrite Ht. eauto. }
  destruct L as [t Ht]. exists t. split; [exact Ht|].
  pose proof (loop_only_logs fs here pat names d) as Q.
  now rewrite Ht in Q.
Qed.

Lemma total_readable pat names :
  no_raise X ->
  (forall n, List.In n (selected pat names) ->
             exists lines, open_ fs (logs_dir here ++ "/" ++ n) = Ok lines) ->
  readable X fs here pat names.
Proof.
  intros total Hopen n Hn. destruct (Hopen n Hn) as [lines Hl].
  exists lines. split; [exact Hl|]. apply Forall_forall. intros l _.
  apply total.
Qed.

Lemma counts_opened pat names :
  readable_counts fs here pat names ->
  forall n, List.In n (selected pat names) ->
            exists lines, open_ fs (logs_dir here ++ "/" ++ n) = Ok lines.
Proof. intros H n Hn. destruct (H n Hn) as (lines & Hl & _). eauto. Qed.

End Lines.

(** The Metrics extractor raises only on an allocation count beyond the
    limit of [int]. *)
Lemma Metrics_safe line :
  allocation_fits line = true ->
  exists r, Metrics.extract_additional_data line = Ok r.
Proof.
  intros Hfit.
  destruct (Str.contains "INFO" line) eqn:HI.
  - destruct (search Metrics.VIEWS_PATTERN line) as [v|] eqn:HV.
    + destruct (extract_decimal_ok _ _ _ HV) as [dv Hdv].
      destruct (metrics_extract_fits line v dv HI HV Hdv Hfit)
        as (od & oa & E & _). eauto.
    + exists None. unfold Metrics.extract_additional_data.
      now rewrite HI, HV.
  - exists None. unfold Metrics.extract_additional_data. now rewrite HI.
Qed.

Lemma counts_readable_metrics fs here pat names :
  readable_counts fs here pat names ->
  readable Metrics_LogFile fs here pat names.
Proof.
  intros H n Hn. destruct (H n Hn) as (lines & Hl & Hf).
  exists lines. split; [exact Hl|].
  unfold safe_lines. apply Forall_forall. intros l Hin.
  rewrite Forall_forall in Hf. apply Metrics_safe. now apply Hf.
Qed.

(** ** The end of an export call: the output directory and the file *)

Lemma export_after_loop {E : Type} {X : LogFile E} (fs : filesystem)
    (here csv_header : string) (csv_row : list E -> E -> string)
    (out : output) (pat : regex) (folder : string) (names : list string)
    (d data : list E) (t0 : list event) :
  exists_ fs (logs_dir here) = true ->
  listdir fs (logs_dir here) = Ok names ->
  for_each names (convert_if_selected fs here pat) d = (Ok tt, data, t0) ->
  export_tsv fs here csv_header csv_row out pat folder d
  = match makedirs_ out (path_join (path_join here "../tmp") folder) with
    | Raise e => (Raise e, data, t0)
    | Ok _ =>
        match data with
        | [] =>
            (Ok tt, data,
             (t0 ++ [MakeDirs (path_join (path_join here "../tmp") folder);
                     Log (Logging.mk Logging.WARNING
                            "No data found to export")])%list)
        | _ :: _ =>
            match open_w out (output_file_path here folder) with
            | Raise e =>
                (Raise e, data,
                 (t0 ++ [MakeDirs (path_join (path_join here "../tmp")
                                     folder)])%list)
            | Ok _ =>
                match to_csv_ out (output_file_path here folder)
                        (to_csv csv_header csv_row data) with
                | Raise e =>
                    (Raise e, data,
                     (t0 ++ [MakeDirs (path_join (path_join here "../tmp")
                                         folder);
                             CreateFile (output_file_path here folder)])%list)
                | Ok _ =>
                    (Ok tt, data,
                     (t0 ++ [MakeDirs (path_join (path_join here "../tmp")
                                         folder);
                             CreateFile (output_file_path here folder);
                             WriteFile (output_file_path here folder)
                               (to_csv csv_header csv_row data);
                             Log (Logging.mk Logging.INFO
                                    ("Data exported to "
                                     ++ output_file_path here folder))])%list)
                end
            end
        end
    end.
Proof.
  intros Hex Hls Hloop. unfold export_tsv. rewrite Hex. cbn [negb].
  unfold seq at 1. unfold lift. rewrite Hls.
  unfold seq at 1. rewrite Hloop.
  unfold seq, makedirs, get_data_list, write_file, logger_info,
    logger_warning, emit.
  destruct (makedirs_ out (path_join (path_join here "../tmp") folder));
    [|now rewrite ?app_nil_r].
  destruct data as [|r l]; [reflexivity|].
  destruct (open_w out (output_file_path here folder)); [|reflexivity].
  destruct (to_csv_ out (output_file_path here folder)
              (to_csv csv_header csv_row (r :: l))); reflexivity.
Qed.

(** ** The table an export call writes *)

(** C8, as the claim states it, fails: all the selected files are
    processed and the Accumulated Record Set holds a Record, but the
    output directory cannot be made; [os.makedirs] raises, the exception
    reaches the caller, and no TSV file is written. *)
Lemma tsv_not_written_counterexample :
  exists d t,
    export_tsv (X := Controller_LogFile) Example.two_files Example.here
      Example.csv_header Example.csv_row Example.read_only
      (log_name_pattern "production") "out" __init__
    = (Raise (OSError "[Errno 13] Permission denied"), d, t) /\
    d <> [] /\ written t = [] /\
    logged t
    = [Logging.mk Logging.INFO
         "Starting to process log file: /app/extractor/../logs/production.log.000001";
       Logging.mk Logging.INFO
         "Starting to process log file: /app/extractor/../logs/production.log.000002"].
Proof.
  do 2 eexists. split; [vm_compute; reflexivity|].
  split; [discriminate|]. split; reflexivity.
Qed.

(** C8, amended: after all selected files are processed, and provided
    the output directory can be made and the TSV file opened and
    written, the TSV file, named with the extractor's class name in
    lower case, is written if and only if the Accumulated Record Set is
    non-empty; its content is the header line followed by one line per
    Record in accumulation order.  When the set is empty, a warning is
    logged and no file is written. *)
Theorem tsv_written_iff_records {E : Type} {X : LogFile E}
    (fs : filesystem) (here csv_header : string)
    (csv_row : list E -> E -> string) (out : output) (pat : regex)
    (folder : string) (names : list string) (d : list E) :
  exists_ fs (logs_dir here) = true ->
  listdir fs (logs_dir here) = Ok names ->
  readable X fs here pat names ->
  writable out here folder ->
  exists data t,
    data = (d ++ selected_records fs here pat names)%list /\
    export_tsv fs here csv_header csv_row out pat folder d = (Ok tt, data, t) /\
    (data <> [] ->
     written t
     = [(path_join (path_join here "../tmp") folder
           ++ "/" ++ Str.lower __name__ ++ ".tsv",
         csv_header ++ String.concat "" (map (csv_row data) data))]) /\
    (data = [] ->
     written t = [] /\
     List.In (Logging.mk Logging.WARNING "No data found to export")
       (logged t)).
Proof.
  intros Hex Hls Hread (Hmk & Hop & Hcsv).
  destruct (loop_readable fs here pat names d Hread) as (t0 & Hloop & Hlog).
  pose proof (export_after_loop fs here csv_header csv_row out pat folder
                names d _ t0 Hex Hls Hloop) as Hrun.
  rewrite Hmk, Hop, Hcsv in Hrun.
  pose proof (logs_write_nothing t0 Hlog) as Hw.
  destruct (d ++ selected_records fs here pat names)%list as [|r l] eqn:Hd.
  - exists [], (t0 ++ [MakeDirs (path_join (path_join here "../tmp") folder);
                      Log (Logging.mk Logging.WARNING
                             "No data found to export")])%list.
    split; [reflexivity|]. split; [exact Hrun|].
    split; [intros N; now contradiction N|]. intros _.
    rewrite written_app, logged_app, Hw. split; [reflexivity|].
    apply in_or_app. right. simpl. now left.
  - eexists. eexists. split; [reflexivity|]. split; [exact Hrun|].
    split; [|discriminate]. intros _. rewrite written_app, Hw.
    reflexivity.
Qed.

Lemma tsv_written_iff_records_witness :
  exists data t,
    data = (__init__ ++ selected_records (X := Controller_LogFile)
                          Example.two_files Example.here
                          (log_name_pattern "production")
                          ["production.log.000001";
                           "production.log.000002"])%list /\
    Example.export Example.two_files __init__ = (Ok tt, data, t) /\
    (data <> [] ->
     written t
     = [(path_join (path_join Example.here "../tmp") "out"
           ++ "/" ++ Str.lower "Controller" ++ ".tsv",
         Example.csv_header
         ++ String.concat "" (map (Example.csv_row data) data))]) /\
    (data = [] ->
     written t = [] /\
     List.In (Logging.mk Logging.WARNING "No data found to export")
       (logged t)).
Proof.
  apply (tsv_written_iff_records (X := Controller_LogFile)
           Example.two_files Example.here Example.csv_header
           Example.csv_row Example.disk (log_name_pattern "production") "out"
           ["production.log.000001"; "production.log.000002"] __init__).
  - reflexivity.
  - reflexivity.
  - intros n [<-|[<-|[]]]; eexists; (split; [vm_compute; reflexivity|]);
      repeat constructor; eexists; vm_compute; reflexivity.
  - repeat split; reflexivity.
Defined.

(** The file of the example: the header and one row. *)
Example two_files_tsv :
  written (snd (Example.export Example.two_files __init__))
  = [("/app/extractor/../tmp/out/controller.tsv",
      "pid" ++ Example.tab ++ "controller_name" ++ Example.nl
      ++ "#42" ++ Example.tab ++ "Controller#show..." ++ Example.nl)].
Proof. vm_compute. reflexivity. Qed.





(** ** What an export call leaves in the output directory *)

Lemma export_write_cases {E : Type} {X : LogFile E}
    (fs : filesystem) (here csv_header : string)
    (csv_row : list E -> E -> string) (out : output) (pat : regex)
    (folder : string) (d : list E) :
  exists o d' t,
    export_tsv fs here csv_header csv_row out pat folder d = (o, d', t) /\
    ((created t = [] /\ written t = []) \/
     ((exists e, o = Raise e) /\ d' <> [] /\
      created t = [output_file_path here folder] /\ written t = []) \/
     (o = Ok tt /\ d' <> [] /\
      created t = [output_file_path here folder] /\
      written t
      = [(output_file_path here folder, to_csv csv_header csv_row d')])).
Proof.
  destruct (exists_ fs (logs_dir here)) eqn:Hex.
  - destruct (listdir fs (logs_dir here)) as [names|e] eqn:Hls.
    + pose proof (loop_only_logs fs here pat names d) as Q.
      destruct (for_each names (convert_if_selected fs here pat) d)
        as [[[[]|e] d1] t1] eqn:Hloop; cbn [snd] in Q.
      * rewrite (export_after_loop fs here csv_header csv_row out pat folder
                   names d d1 t1 Hex Hls Hloop).
        pose proof (logs_write_nothing t1 Q) as Hw.
        pose proof (logs_create_nothing t1 Q) as Hc.
        destruct (makedirs_ out (path_join (path_join here "../tmp") folder));
          [|do 3 eexists; split; [reflexivity|]; left; now split].
        destruct d1 as [|r l];
          [do 3 eexists; split; [reflexivity|]; left;
           now rewrite created_app, written_app, Hw, Hc|].
        destruct (open_w out (output_file_path here folder));
          [|do 3 eexists; split; [reflexivity|]; left;
            now rewrite created_app, written_app, Hw, Hc].
        destruct (to_csv_ out (output_file_path here folder)
                    (to_csv csv_header csv_row (r :: l)));
          do 3 eexists; (split; [reflexivity|]); right.
        -- right. rewrite created_app, written_app, Hw, Hc.
           repeat split; try reflexivity. discriminate.
        -- left. rewrite created_app, written_app, Hw, Hc.
           repeat split; try reflexivity; [eauto | discriminate].
      * unfold export_tsv. rewrite Hex. cbn [negb].
        unfold seq at 1. unfold lift. rewrite Hls. unfold seq at 1.
        rewrite Hloop. do 3 eexists. split; [reflexivity|]. left.
        cbn [app]. split;
          [now apply logs_create_nothing | now apply logs_write_nothing].
    + unfold export_tsv. rewrite Hex. cbn [negb].
      unfold seq at 1. unfold lift. rewrite Hls.
      do 3 eexists. split; [reflexivity|]. left. now split.
  - unfold export_tsv. rewrite Hex. cbn [negb].
    do 3 eexists. split; [reflexivity|]. left. now split.
Qed.

(** X3: an export call creates at most one file, the extractor's TSV
    path, and writes to no other.  Either nothing is created or written;
    or the file has been opened for writing and the write raises: the call
    raises and leaves the file without a table; or the call returns
    normally, [data_list] is not empty and the file holds the table of the
    whole [data_list]. *)
Theorem export_writes_at_most_one {E : Type} {X : LogFile E}
    (fs : filesystem) (here csv_header : string)
    (csv_row : list E -> E -> string) (out : output) (pat : regex)
    (folder : string) (d : list E) :
  let run := export_tsv fs here csv_header csv_row out pat folder d in
  (created (snd run) = [] /\ written (snd run) = []) \/
  ((exists e, fst (fst run) = Raise e) /\ snd (fst run) <> [] /\
   created (snd run) = [output_file_path here folder] /\
   written (snd run) = []) \/
  (fst (fst run) = Ok tt /\ snd (fst run) <> [] /\
   created (snd run) = [output_file_path here folder] /\
   written (snd run)
   = [(output_file_path here folder,
       to_csv csv_header csv_row (snd (fst run)))]).
Proof.
  intros run.
  destruct (export_write_cases fs here csv_header csv_row out pat folder d)
    as (o & d' & t & Hrun & H).
  unfold run. rewrite Hrun. exact H.
Qed.

(** The file left behind when the disk is full: it is created, and the
    table is not written. *)
Example full_disk_leaves_file :
  exists d t,
    export_tsv (X := Controller_LogFile) Example.two_files Example.here
      Example.csv_header Example.csv_row Example.full
      (log_name_pattern "production") "out" __init__
    = (Raise (OSError "[Errno 28] No space left on device"), d, t) /\
    created t = ["/app/extractor/../tmp/out/controller.tsv"] /\
    written t = [].
Proof. do 2 eexists. split; [vm_compute; reflexivity|]. split; reflexivity. Qed.

(** X11: when the name filter selects no file of the listing, an export
    call on a new extractor opens nothing and then makes the output
    directory.  If that raises, the call raises and nothing is logged;
    otherwise the call logs the warning that there is nothing to export,
    and writes no file. *)
Theorem nothing_selected_nothing_written {E : Type} {X : LogFile E}
    (fs : filesystem) (here csv_header : string)
    (csv_row : list E -> E -> string) (out : output) (pat : regex)
    (folder : string) (names : list string) :
  exists_ fs (logs_dir here) = true ->
  listdir fs (logs_dir here) = Ok names ->
  selected pat names = [] ->
  export_tsv fs here csv_header csv_row out pat folder __init__
  = match makedirs_ out (path_join (path_join here "../tmp") folder) with
    | Ok _ =>
        (Ok tt, [],
         [MakeDirs (path_join (path_join here "../tmp") folder);
          Log (Logging.mk Logging.WARNING "No data found to export")])
    | Raise e => (Raise e, [], [])
    end.
Proof.
  intros Hex Hls Hsel.
  assert (L : forall d,
    for_each names (convert_if_selected fs here pat) d = (Ok tt, d, [])).
  { clear Hls. induction names as [|n l IH]; intros d; [reflexivity|].
    unfold selected in Hsel. cbn [filter] in Hsel.
    cbn [for_each]. unfold seq, convert_if_selected at 1.
    destruct (re_match pat n); [discriminate Hsel|].
    unfold ret. now rewrite (IH Hsel). }
  rewrite (export_after_loop fs here csv_header csv_row out pat folder names
             __init__ __init__ [] Hex Hls (L __init__)).
  now destruct (makedirs_ out (path_join (path_join here "../tmp") folder)).
Qed.

Lemma nothing_selected_nothing_written_witness :
  export_tsv (X := Controller_LogFile) Example.two_files Example.here
    Example.csv_header Example.csv_row Example.read_only
    (log_name_pattern "staging") "out" __init__
  = match makedirs_ Example.read_only
            (path_join (path_join Example.here "../tmp") "out") with
    | Ok _ =>
        (Ok tt, [],
         [MakeDirs (path_join (path_join Example.here "../tmp") "out");
          Log (Logging.mk Logging.WARNING "No data found to export")])
    | Raise e => (Raise e, [], [])
    end.
Proof.
  apply (nothing_selected_nothing_written (X := Controller_LogFile)
           Example.two_files Example.here Example.csv_header Example.csv_row
           Example.read_only (log_name_pattern "staging") "out"
           ["production.log.000001"; "production.log.000002"]);
    reflexivity.
Defined.

(** The two ends of such a call. *)
Example nothing_selected_disk :
  export_tsv (X := Controller_LogFile) Example.two_files Example.here
    Example.csv_header Example.csv_row Example.disk
    (log_name_pattern "staging") "out" __init__
  = (Ok tt, [],
     [MakeDirs "/app/extractor/../tmp/out";
      Log (Logging.mk Logging.WARNING "No data found to export")]).
Proof. vm_compute. reflexivity. Qed.

Example nothing_selected_read_only :
  export_tsv (X := Controller_LogFile) Example.two_files Example.here
    Example.csv_header Example.csv_row Example.read_only
    (log_name_pattern "staging") "out" __init__
  = (Raise (OSError "[Errno 13] Permission denied"), [], []).
Proof. vm_compute. reflexivity. Qed.

(** X12: in a line tagged INFO whose first [V] starts a token
    [Views: D.Fms], and whose allocation count, if it has one, is within
    the limit of [int], the Metrics extractor returns the views as the
    decimal with the digits of D and F as coefficient and minus the
    number of digits of F as exponent: the digits are kept as written,
    trailing zeros included. *)
Theorem metrics_views_read_as_written (pre D F post : string) :
  Str.contains "INFO" (pre ++ "Views: " ++ D ++ "." ++ F ++ "ms" ++ post)
  = true ->
  Str.all (differs "V") pre = true ->
  is_digits D = true -> is_digits F = true ->
  allocation_fits (pre ++ "Views: " ++ D ++ "." ++ F ++ "ms" ++ post)
  = true ->
  exists r,
    Metrics.extract_additional_data
      (pre ++ "Views: " ++ D ++ "." ++ F ++ "ms" ++ post) = Ok (Some r) /\
    Metrics.views r
    = Some (Decimal.mk false (digits_value 0 (D ++ F))
              (- Z.of_nat (String.length F))).
Proof.
  intros HI Hp HD HF Hfit.
  destruct (millis_token_fraction "V" "iews: " pre D F post Hp HD HF)
    as (m & Hs & Hd).
  destruct (metrics_extract_fits _ m _ HI Hs Hd Hfit) as (od & oa & Hr & _).
  eexists. split; [exact Hr | reflexivity].
Qed.

Lemma metrics_views_read_as_written_witness :
  exists r,
    Metrics.extract_additional_data
      ("INFO (" ++ "Views: " ++ "12" ++ "." ++ "50" ++ "ms"
       ++ " | Allocations: 1200)") = Ok (Some r) /\
    Metrics.views r
    = Some (Decimal.mk false (digits_value 0 ("12" ++ "50"))
              (- Z.of_nat (String.length "50"))).
Proof.
  apply (metrics_views_read_as_written "INFO (" "12" "50"
           " | Allocations: 1200)"); reflexivity.
Defined.

(** ** The export task *)

Section TaskRounds.

Context {E : Type} (X : LogFile E).
Variable fs : filesystem.
Variable here : string.
Variable csv_header : string.
Variable csv_row : list E -> E -> string.
Variable out : output.

(** A round in which every selected file is read to its end, and the
    output location can be written. *)
Lemma round_readable cls_name pat folder names :
  exists_ fs (logs_dir here) = true ->
  listdir fs (logs_dir here) = Ok names ->
  readable X fs here pat names ->
  writable (X := X) out here folder ->
  written (Tasks.engine_events
             (Tasks.round fs here out cls_name (Ok X) csv_header csv_row pat
                folder))
  = tsv_of fs here csv_header csv_row pat folder names /\
  Tasks.printed
    (Tasks.round fs here out cls_name (Ok X) csv_header csv_row pat folder)
  = [].
Proof.
  intros Hex Hls Hread (Hmk & Hop & Hcsv).
  destruct (loop_readable fs here pat names __init__ Hread)
    as (t0 & Hloop & Hlog).
  pose proof (export_after_loop fs here csv_header csv_row out pat folder
                names __init__ _ t0 Hex Hls Hloop) as Hrun.
  rewrite Hmk, Hop, Hcsv in Hrun.
  pose proof (logs_write_nothing t0 Hlog) as Hw.
  unfold Tasks.round, tsv_of. unfold __init__ in *. cbn [app] in *.
  destruct (selected_records fs here pat names) as [|r l];
    rewrite Hrun, engine_events_map, printed_map, written_app, Hw;
    split; reflexivity.
Qed.

(** A round in which a selected file does not open. *)
Lemma round_open_failure cls_name pat folder before bad after what :
  exists_ fs (logs_dir here) = true ->
  listdir fs (logs_dir here) = Ok (before ++ bad :: after)%list ->
  readable X fs here pat before ->
  re_match pat bad <> None ->
  open_ fs (logs_dir here ++ "/" ++ bad) = Raise (OSError what) ->
  created (Tasks.engine_events
             (Tasks.round fs here out cls_name (Ok X) csv_header csv_row pat
                folder)) = [] /\
  written (Tasks.engine_events
             (Tasks.round fs here out cls_name (Ok X) csv_header csv_row pat
                folder)) = [] /\
  Tasks.printed
    (Tasks.round fs here out cls_name (Ok X) csv_header csv_row pat folder)
  = ["Error exporting data for " ++ cls_name ++ ": " ++ what].
Proof.
  intros Hex Hls Hread Hsel Hbad.
  destruct (loop_readable fs here pat before __init__ Hread)
    as (t1 & Hloop & Hlog).
  assert (Hrun : exists d t,
    export_tsv fs here csv_header csv_row out pat folder __init__
    = (Raise (OSError what), d, t) /\ Forall is_log t).
  { pose proof (convert_unopened fs _ _
                  (__init__ ++ selected_records fs here pat before)%list
                  Hbad) as Hc.
    assert (Hb : convert_if_selected fs here pat bad
                   (__init__ ++ selected_records fs here pat before)%list
                 = (Raise (OSError what),
                    (__init__ ++ selected_records fs here pat before)%list,
                    [Log (Logging.mk Logging.INFO
                            ("Starting to process log file: "
                             ++ logs_dir here ++ "/" ++ bad));
                     Log (Logging.mk Logging.ERROR
                            ("Error opening file "
                             ++ (logs_dir here ++ "/" ++ bad)
                             ++ ": " ++ what))])).
    { unfold convert_if_selected.
      destruct (re_match pat bad); [exact Hc | contradiction]. }
    unfold export_tsv. rewrite Hex. cbn [negb].
    unfold seq at 1. unfold lift. rewrite Hls. unfold seq at 1.
    rewrite (for_each_raise _ before bad after _ _ _ _ _ _ Hloop Hb).
    do 2 eexists. split; [reflexivity|].
    cbn [app]. apply Forall_app. split; [exact Hlog|].
    repeat constructor. }
  destruct Hrun as (d & t & Hrun & Hwt).
  unfold Tasks.round. rewrite Hrun.
  rewrite engine_events_app, printed_app, engine_events_map, printed_map.
  cbn [Tasks.engine_events Tasks.printed str_exn app].
  rewrite app_nil_r, (logs_write_nothing t Hwt), (logs_create_nothing t Hwt).
  repeat split; reflexivity.
Qed.

End TaskRounds.

Section TaskProperties.

Variable fs : filesystem.
Variable here : string.
Variable controller_header : string.
Variable controller_row
  : list Controller.DataStruct -> Controller.DataStruct -> string.
Variable metrics_header : string.
Variable metrics_row : list Metrics.DataStruct -> Metrics.DataStruct -> string.
Variable model_header : string.
Variable model_row : list Model.DataStruct -> Model.DataStruct -> string.
Variable model_tables : outcome (list string).
Variable out : output.

(** X8: for an environment name without special characters, when every
    selected file opens, no line of them holds an allocation count beyond
    the limit of [int], and the output directory and the three files can
    be written, the export task writes, in this order, the tables of the
    Controller, the Metrics and the Model extractor, each one only if its
    extractor found a record, every extractor starting from an empty
    [data_list].  It prints nothing, unless the construction of the Model
    extractor raises: then the two other tables are written all the same
    and one line is printed. *)
Theorem task_writes_one_table_per_extractor (data_folder rails_env : string)
    (names : list string) :
  plain rails_env = true ->
  exists_ fs (logs_dir here) = true ->
  listdir fs (logs_dir here) = Ok names ->
  readable_counts fs here (log_name_pattern rails_env) names ->
  writable (X := Controller_LogFile) out here data_folder ->
  writable (X := Metrics_LogFile) out here data_folder ->
  (forall table_names, model_tables = Ok table_names ->
     writable (X := Model_LogFile table_names) out here data_folder) ->
  written (Tasks.engine_events (Tasks.export_rails_log_data fs here
       controller_header controller_row metrics_header metrics_row
       model_header model_row model_tables out data_folder rails_env))
  = (tsv_of (X := Controller_LogFile) fs here controller_header
       controller_row (log_name_pattern rails_env) data_folder names
     ++ tsv_of (X := Metrics_LogFile) fs here metrics_header metrics_row
          (log_name_pattern rails_env) data_folder names
     ++ match model_tables with
        | Ok table_names =>
            tsv_of (X := Model_LogFile table_names) fs here model_header
              model_row (log_name_pattern rails_env) data_folder names
        | Raise _ => []
        end)%list /\
  Tasks.printed (Tasks.export_rails_log_data fs here controller_header
       controller_row metrics_header metrics_row model_header model_row
       model_tables out data_folder rails_env)
  = match model_tables with
    | Ok _ => []
    | Raise e => ["Error exporting data for Model: " ++ str_exn e]
    end.
Proof.
  intros _ Hex Hls Hcounts Wrc Wrm Wro.
  pose proof (counts_opened fs here _ names Hcounts) as Hopen.
  unfold Tasks.export_rails_log_data. cbv zeta.
  rewrite !engine_events_app, !written_app, !printed_app.
  destruct (round_readable Controller_LogFile fs here controller_header
              controller_row out "Controller" (log_name_pattern rails_env)
              data_folder names Hex Hls
              (total_readable fs here _ names Controller_total Hopen) Wrc)
    as [Wc Pc].
  destruct (round_readable Metrics_LogFile fs here metrics_header
              metrics_row out "Metrics" (log_name_pattern rails_env)
              data_folder names Hex Hls
              (counts_readable_metrics fs here _ names Hcounts) Wrm)
    as [Wm Pm].
  rewrite Wc, Pc, Wm, Pm.
  destruct model_tables as [table_names|e]; cbn [Py.bind].
  - destruct (round_readable (Model_LogFile table_names) fs here
                model_header model_row out "Model"
                (log_name_pattern rails_env) data_folder names Hex Hls
                (total_readable fs here _ names (Model_total table_names)
                   Hopen)
                (Wro table_names eq_refl))
      as [Wo Po].
    rewrite Wo, Po. split; reflexivity.
  - split; reflexivity.
Qed.

(** X9: for an environment name without special characters, a selected
    file that cannot be opened, after selected files that open and hold no
    allocation count beyond the limit of [int], stops every extractor of
    the export task at that file: the task itself returns, no file is
    created or written at all, whatever the output location allows, and
    one line is printed for each class (for the Model class it names the
    fault of its construction when that raised). *)
Theorem task_open_failure_writes_nothing (data_folder rails_env : string)
    (before : list string) (bad : string) (after : list string)
    (what : string) :
  plain rails_env = true ->
  exists_ fs (logs_dir here) = true ->
  listdir fs (logs_dir here) = Ok (before ++ bad :: after)%list ->
  readable_counts fs here (log_name_pattern rails_env) before ->
  re_match (log_name_pattern rails_env) bad <> None ->
  open_ fs (logs_dir here ++ "/" ++ bad) = Raise (OSError what) ->
  created (Tasks.engine_events (Tasks.export_rails_log_data fs here
       controller_header controller_row metrics_header metrics_row
       model_header model_row model_tables out data_folder rails_env)) = [] /\
  written (Tasks.engine_events (Tasks.export_rails_log_data fs here
       controller_header controller_row metrics_header metrics_row
       model_header model_row model_tables out data_folder rails_env)) = [] /\
  Tasks.printed (Tasks.export_rails_log_data fs here controller_header
       controller_row metrics_header metrics_row model_header model_row
       model_tables out data_folder rails_env)
  = ["Error exporting data for Controller: " ++ what;
     "Error exporting data for Metrics: " ++ what;
     "Error exporting data for Model: "
     ++ match model_tables with
        | Ok _ => what
        | Raise e => str_exn e
        end].
Proof.
  intros _ Hex Hls Hcounts Hsel Hbad.
  pose proof (counts_opened fs here _ before Hcounts) as Hopen.
  unfold Tasks.export_rails_log_data. cbv zeta.
  rewrite !engine_events_app, !written_app, !created_app, !printed_app.
  destruct (round_open_failure Controller_LogFile fs here controller_header
              controller_row out "Controller" (log_name_pattern rails_env)
              data_folder before bad after what Hex Hls
              (total_readable fs here _ before Controller_total Hopen)
              Hsel Hbad) as (Cc & Wc & Pc).
  destruct (round_open_failure Metrics_LogFile fs here metrics_header
              metrics_row out "Metrics" (log_name_pattern rails_env)
              data_folder before bad after what Hex Hls
              (counts_readable_metrics fs here _ before Hcounts)
              Hsel Hbad) as (Cm & Wm & Pm).
  rewrite Cc, Wc, Pc, Cm, Wm, Pm.
  destruct model_tables as [table_names|e]; cbn [Py.bind].
  - destruct (round_open_failure (Model_LogFile table_names) fs here
                model_header model_row out "Model"
                (log_name_pattern rails_env) data_folder before bad after
                what Hex Hls
                (total_readable fs here _ before (Model_total table_names)
                   Hopen)
                Hsel Hbad) as (Co & Wo & Po).
    rewrite Co, Wo, Po. repeat split; reflexivity.
  - repeat split; reflexivity.
Qed.

End TaskProperties.

Lemma task_writes_one_table_per_extractor_witness :
  written
    (Tasks.engine_events
       (Tasks.export_rails_log_data Example.two_files Example.here
          Example.csv_header Example.csv_row "" (fun _ _ => "") ""
          (fun _ _ => "") (Ok ["User"]) Example.disk "out" "production"))
  = (tsv_of (X := Controller_LogFile) Example.two_files Example.here
       Example.csv_header Example.csv_row (log_name_pattern "production")
       "out" ["production.log.000001"; "production.log.000002"]
     ++ tsv_of (X := Metrics_LogFile) Example.two_files Example.here ""
          (fun _ _ => "") (log_name_pattern "production") "out"
          ["production.log.000001"; "production.log.000002"]
     ++ tsv_of (X := Model_LogFile ["User"]) Example.two_files Example.here
          "" (fun _ _ => "") (log_name_pattern "production") "out"
          ["production.log.000001"; "production.log.000002"])%list /\
  Tasks.printed
    (Tasks.export_rails_log_data Example.two_files Example.here
       Example.csv_header Example.csv_row "" (fun _ _ => "") ""
       (fun _ _ => "") (Ok ["User"]) Example.disk "out" "production")
  = [].
Proof.
  apply (task_writes_one_table_per_extractor Example.two_files Example.here
           Example.csv_header Example.csv_row "" (fun _ _ => "") ""
           (fun _ _ => "") (Ok ["User"]) Example.disk "out" "production"
           ["production.log.000001"; "production.log.000002"]).
  - reflexivity.
  - reflexivity.
  - reflexivity.
  - intros n [<-|[<-|[]]]; eexists; (split; [vm_compute; reflexivity|]);
      repeat constructor.
  - repeat split; reflexivity.
  - repeat split; reflexivity.
  - intros table_names _. repeat split; reflexivity.
Defined.

Lemma task_open_failure_writes_nothing_witness :
  created
    (Tasks.engine_events
       (Tasks.export_rails_log_data Example.three_files Example.here
          Example.csv_header Example.csv_row "" (fun _ _ => "") ""
          (fun _ _ => "") (Ok ["User"]) Example.disk "out" "production"))
  = [] /\
  written
    (Tasks.engine_events
       (Tasks.export_rails_log_data Example.three_files Example.here
          Example.csv_header Example.csv_row "" (fun _ _ => "") ""
          (fun _ _ => "") (Ok ["User"]) Example.disk "out" "production"))
  = [] /\
  Tasks.printed
    (Tasks.export_rails_log_data Example.three_files Example.here
       Example.csv_header Example.csv_row "" (fun _ _ => "") ""
       (fun _ _ => "") (Ok ["User"]) Example.disk "out" "production")
  = ["Error exporting data for Controller: "
     ++ "[Errno 13] Permission denied";
     "Error exporting data for Metrics: " ++ "[Errno 13] Permission denied";
     "Error exporting data for Model: " ++ "[Errno 13] Permission denied"].
Proof.
  apply (task_open_failure_writes_nothing Example.three_files Example.here
           Example.csv_header Example.csv_row "" (fun _ _ => "") ""
           (fun _ _ => "") (Ok ["User"]) Example.disk "out" "production"
           ["production.log.000001"] "production.log.000002"
           ["production.log.000003"] "[Errno 13] Permission denied").
  - reflexivity.
  - reflexivity.
  - reflexivity.
  - intros n [<-|[]]. eexists. split; [vm_compute; reflexivity|].
    repeat constructor.
  - vm_compute. discriminate.
  - reflexivity.
Defined.
